(** * plugin-manager/utils: resolution of local networks and CNI keyword substitution

    A shallow embedding of [utils/utils.go]: the keyword substitution over a
    CNI configuration tree ([UpdateCNIConfigByKeywords]), the bridge lookup
    ([GetBridgeInfo]), the selection of the local networks and routers
    ([GetLocalNetworksAndRouters]) and its metadata front end
    ([GetLocalNetworksAndRoutersFromMetadata]).

    Go strings are byte strings and are modelled by [string]; Go maps are
    modelled by [gmap]; a Go [interface{}] holding decoded configuration is the
    inductive type [node]. *)

From Stdlib Require Import Ascii String.
From stdpp Require Import gmap strings list fin_maps.

(** ** The parts of Go's [strings] package the code calls *)

Module GoStrings.

(** [strings.HasPrefix(s, prefix)]: the bytes of [prefix] open [s]. *)
Fixpoint HasPrefix (s prefix : string) : bool :=
  match prefix, s with
  | EmptyString, _ => true
  | String p prefix', String c s' => bool_decide (p = c) && HasPrefix s' prefix'
  | String _ _, EmptyString => false
  end.

(** [strings.Index(s, sep)] for a one-byte separator, together with the two
    slices [s[:m]] and [s[m+1:]] around the first occurrence. *)
Fixpoint cut (s : string) (sep : ascii) : option (string * string) :=
  match s with
  | EmptyString => None
  | String c s' =>
      if bool_decide (c = sep) then Some (EmptyString, s')
      else match cut s' sep with
           | Some (before, after) => Some (String c before, after)
           | None => None
           end
  end.

(** [strings.SplitN(s, sep, 2)] for a one-byte separator: at most two
    parts, split at the first separator. *)
Definition SplitN_2 (s : string) (sep : ascii) : list string :=
  match cut s sep with
  | Some (before, after) => [before; after]
  | None => [s]
  end.

(** The byte [c] occurs in [s]. *)
Fixpoint contains_byte (s : string) (c : ascii) : bool :=
  match s with
  | EmptyString => false
  | String c' s' => bool_decide (c' = c) || contains_byte s' c
  end.

(** The ASCII white space of [strings.TrimSpace]:
    tab, line feed, vertical tab, form feed, carriage return, space. *)
Definition ascii_space (c : ascii) : bool :=
  let n := nat_of_ascii c in
  (Nat.leb 9 n && Nat.leb n 13) || Nat.eqb n 32.

Fixpoint trim_left (s : string) : string :=
  match s with
  | EmptyString => EmptyString
  | String c s' => if ascii_space c then trim_left s' else s
  end.

Fixpoint trim_right (s : string) : string :=
  match s with
  | EmptyString => EmptyString
  | String c s' =>
      match trim_right s' with
      | EmptyString => if ascii_space c then EmptyString else String c EmptyString
      | t => String c t
      end
  end.

(** [strings.TrimSpace] on strings made of ASCII bytes only.  The
    development is parametric in the trimming function (see [Utils]); this
    instance serves the concrete configurations below, which are ASCII. *)
Definition TrimSpace_ascii (s : string) : string := trim_right (trim_left s).

End GoStrings.

Import GoStrings.

(** ** The metadata types (package [metadata]), with the fields the code reads *)

(** A value held in an [interface{}] of a decoded configuration:
    [map[string]interface{}], [string], [[]interface{}], or any other
    dynamic type (numbers by their float64 bit pattern, booleans, nil). *)
#[warnings="-register-all"]
Inductive node :=
| NMap (props : gmap string node)
| NString (v : string)
| NList (elems : list node)
| NNumber (bits : Z)
| NBool (b : bool)
| NNil.

Record Host := {
  Host_UUID : string;
  Host_EnvironmentUUID : string;
  Labels : gmap string string
}.

Record Container := {
  Container_UUID : string;
  HostUUID : string;
  NetworkUUID : string;
  State : string
}.

Record Service := {
  Service_UUID : string;
  StackUUID : string;
  Kind : string;
  Name : string;
  PrimaryServiceName : string;
  Containers : list Container
}.

Record Network := {
  Network_UUID : string;
  Network_EnvironmentUUID : string;
  Metadata : gmap string node
}.

(** The zero value of [metadata.Service]. *)
Definition zero_Service : Service :=
  {| Service_UUID := ""; StackUUID := ""; Kind := ""; Name := "";
     PrimaryServiceName := ""; Containers := [] |}.

(** Indexing a [map[string]string]: the zero value when the key is absent. *)
Definition index_string (m : gmap string string) (k : string) : string :=
  default "" (m !! k).

(** [x, _ := props[k].(string)]: the string under [k], or the zero value. *)
Definition string_field (props : gmap string node) (k : string) : string :=
  match props !! k with
  | Some (NString v) => v
  | _ => ""
  end.

(** [conf, _ := m[k].(map[string]interface{})]: the mapping under [k]
    and whether the assertion held; a nil (empty) mapping when it did not. *)
Definition map_field (m : gmap string node) (k : string) : gmap string node * bool :=
  match m !! k with
  | Some (NMap props) => (props, true)
  | _ => (∅, false)
  end.

(** Positions in a configuration tree: a key of a mapping or an index of a
    list, and the subtree a path leads to. *)
Inductive step :=
| Key (k : string)
| Index (i : nat).

Fixpoint subtree (config : node) (path : list step) : option node :=
  match path with
  | [] => Some config
  | Key k :: path' =>
      match config with
      | NMap props => props !! k ≫= λ child, subtree child path'
      | _ => None
      end
  | Index i :: path' =>
      match config with
      | NList elems => elems !! i ≫= λ child, subtree child path'
      | _ => None
      end
  end.

(** A size, for induction over trees nested in maps and lists. *)
Fixpoint node_size (config : node) : nat :=
  match config with
  | NMap props => S (map_fold (λ _ child acc, node_size child + acc) 0 props)
  | NList elems => S (foldr (λ child acc, node_size child + acc) 0 elems)
  | _ => 1
  end.

(** ** utils.go *)

Definition hostLabelKeyword : string := "__host_label__".

Section Utils.

(** [strings.TrimSpace], which trims Unicode white space rune by rune; the
    code below only applies it. *)
Variable TrimSpace : string → string.

(** Lines 28-36: the value written under a key whose string [v] opens with
    the keyword. *)
Definition hostLabelValue (host : Host) (v : string) : string :=
  let replaced := "" in
  let splits := SplitN_2 v ":" in
  if decide (1 < length splits) then
    let label := TrimSpace (nth 1 splits "") in
    let labelValue := index_string (Labels host) label in
    if decide (labelValue ≠ "") then labelValue else replaced
  else replaced.

(** The loop of lines 25-41 visits every key of [props] once and overwrites
    the value under that key only, so it maps the body over the values. *)
Fixpoint UpdateCNIConfigByKeywords (config : node) (host : Host) : node :=
  match config with
  | NMap props =>
      NMap ((λ aValue,
               match aValue with
               | NString v =>
                   if HasPrefix v hostLabelKeyword
                   then NString (hostLabelValue host v)
                   else aValue
               | _ => UpdateCNIConfigByKeywords aValue host
               end) <$> props)
  | _ => config
  end.

(** The body of the loop, on one value. *)
Definition updateValue (host : Host) (aValue : node) : node :=
  match aValue with
  | NString v =>
      if HasPrefix v hostLabelKeyword
      then NString (hostLabelValue host v)
      else aValue
  | _ => UpdateCNIConfigByKeywords aValue host
  end.

(** The loop of lines 25-41 as written: the keys in some iteration order,
    each step storing the new value into the mapping under its key. *)
Definition UpdateCNIConfigByKeywords_range
    (order : list (string * node)) (host : Host)
    (props : gmap string node) : gmap string node :=
  foldl (λ props '(aKey, aValue), <[aKey := updateValue host aValue]> props)
        props order.

(** Lines 51-55: the file after substitution, and the strings read from it
    under ["type"], ["bridge"] and ["bridgeSubnet"]. *)
Definition readFile (file : node) (host : Host) : string * string * string :=
  let file := UpdateCNIConfigByKeywords file host in
  let props := match file with NMap props => props | _ => ∅ end in
  let cniType := string_field props "type" in
  let checkBridge := string_field props "bridge" in
  let bridgeSubnet := string_field props "bridgeSubnet" in
  (cniType, checkBridge, bridgeSubnet).

(** The test of line 57. *)
Definition isBridge (cniType checkBridge : string) : Prop :=
  cniType = "rancher-bridge" ∧ checkBridge ≠ "".

(** Lines 50-61 over the files in the order of the iteration; each file
    overwrites [bridgeSubnet], the first bridge file ends the loop. *)
Fixpoint GetBridgeInfo_range (files : list node) (host : Host)
    (bridge bridgeSubnet : string) : string * string :=
  match files with
  | [] => (bridge, bridgeSubnet)
  | file :: files' =>
      let '(cniType, checkBridge, bridgeSubnet) := readFile file host in
      if decide (isBridge cniType checkBridge)
      then (checkBridge, bridgeSubnet)
      else GetBridgeInfo_range files' host bridge bridgeSubnet
  end.

(** The mapping the loop of [GetBridgeInfo] ranges over (line 49). *)
Definition cniConfig (network : Network) : gmap string node :=
  (map_field (Metadata network) "cniConfig").1.

(** [GetBridgeInfo] when the runtime ranges over the files in [order]. *)
Definition GetBridgeInfo_in (order : list (string * node)) (host : Host)
    : string * string :=
  GetBridgeInfo_range (order.*2) host "" "".

(** One run of [GetBridgeInfo]: the files in the order of [map_to_list]. *)
Definition GetBridgeInfo (network : Network) (host : Host) : string * string :=
  GetBridgeInfo_in (map_to_list (cniConfig network)) host.

End Utils.

(** Go leaves the order of a [range] over a map open: any enumeration of the
    entries, each once. *)
Definition range_order {A} (m : gmap string A) (order : list (string * A)) : Prop :=
  order ≡ₚ map_to_list m.

(** The results [GetBridgeInfo] can return, over all iteration orders. *)
Definition GetBridgeInfo_returns (TrimSpace : string → string)
    (network : Network) (host : Host) (result : string * string) : Prop :=
  ∃ order, range_order (cniConfig network) order
           ∧ GetBridgeInfo_in TrimSpace order host = result.

(** ** [GetLocalNetworksAndRouters] *)

(** Lines 74-78: the services of kind ["networkDriverService"] are appended
    one by one. *)
Definition unfilteredCniDriverServices (services : list Service) : list Service :=
  foldl (λ unfiltered service,
           if decide (Kind service = "networkDriverService")
           then unfiltered ++ [service]
           else unfiltered)
        [] services.

(** Lines 80-90: with any number of candidates but one, the loop of lines
    82-87 runs over them; with exactly one, the candidates are taken as they
    are. *)
Definition cniDriverServices (services : list Service) : list Service :=
  let unfiltered := unfilteredCniDriverServices services in
  if decide (length unfiltered ≠ 1)
  then foldl (λ drivers service,
                if decide (Name service ≠ "cni-driver")
                then drivers
                else drivers ++ [service])
             [] unfiltered
  else unfiltered.

(** The test of lines 100-102 against the driver service. *)
Definition otherPrimaryService (driver service : Service) : Prop :=
  StackUUID service = StackUUID driver
  ∧ Service_UUID service ≠ Service_UUID driver
  ∧ Name service = PrimaryServiceName service.

Global Instance otherPrimaryService_dec driver service :
  Decision (otherPrimaryService driver service).
Proof. unfold otherPrimaryService. apply _. Defined.

(** Lines 99-106: the loop that stops at the first service passing the
    test; [networkService] keeps its value when none does. *)
Fixpoint findNetworkService (driver : Service) (services : list Service)
    (networkService : Service) : Service :=
  match services with
  | [] => networkService
  | service :: services' =>
      if decide (otherPrimaryService driver service)
      then service
      else findNetworkService driver services' networkService
  end.

(** Lines 97-107, from the zero value of line 70; the driver is
    [cniDriverServices[0]]. *)
Definition networkServiceOf (drivers services : list Service) : Service :=
  match drivers with
  | driver :: _ => findNetworkService driver services zero_Service
  | [] => zero_Service
  end.

(** Lines 109-113: the containers on this host, each stored under its
    network, a later one replacing an earlier one. *)
Definition localRoutersOf (containers : list Container) (host : Host)
    : gmap string Container :=
  foldl (λ localRouters aContainer,
           if decide (HostUUID aContainer = Host_UUID host)
           then <[NetworkUUID aContainer := aContainer]> localRouters
           else localRouters)
        ∅ containers.

(** Lines 115-133: three tests, each skipping the network when it fails. *)
Definition localNetworksOf (networks : list Network) (host : Host)
    (localRouters : gmap string Container) : list Network :=
  foldl (λ localNetworks aNetwork,
           if decide (Network_EnvironmentUUID aNetwork ≠ Host_EnvironmentUUID host)
           then localNetworks
           else if negb (map_field (Metadata aNetwork) "cniConfig").2
           then localNetworks
           else if negb (bool_decide (is_Some (localRouters !! Network_UUID aNetwork)))
           then localNetworks
           else localNetworks ++ [aNetwork])
        [] networks.

(** Lines 97-136, from the driver services chosen by lines 74-90. *)
Definition resolveWithDrivers (drivers : list Service)
    (networks : list Network) (host : Host) (services : list Service)
    : list Network * gmap string Container :=
  let networkService := networkServiceOf drivers services in
  let localRouters := localRoutersOf (Containers networkService) host in
  let localNetworks := localNetworksOf networks host localRouters in
  (localNetworks, localRouters).

Definition GetLocalNetworksAndRouters (networks : list Network) (host : Host)
    (services : list Service) : list Network * gmap string Container :=
  resolveWithDrivers (cniDriverServices services) networks host services.

(** The service the code takes for the network service. *)
Definition networkService (services : list Service) : Service :=
  networkServiceOf (cniDriverServices services) services.

(** A network carries a CNI configuration: its metadata has a ["cniConfig"]
    entry that is a mapping with string keys. *)
Definition hasCniConfig (aNetwork : Network) : Prop :=
  ∃ props, Metadata aNetwork !! "cniConfig" = Some (NMap props).

Global Instance hasCniConfig_dec aNetwork : Decision (hasCniConfig aNetwork).
Proof.
  unfold hasCniConfig.
  destruct (Metadata aNetwork !! "cniConfig") as [[props| | | | |]|];
    first (left; by exists props); right; by intros [? ?].
Defined.

(** The networks that are local: in the environment of the host, with a CNI
    configuration, and with a router on the host. *)
Definition isLocalNetwork (host : Host) (localRouters : gmap string Container)
    (aNetwork : Network) : Prop :=
  Network_EnvironmentUUID aNetwork = Host_EnvironmentUUID host
  ∧ hasCniConfig aNetwork
  ∧ Network_UUID aNetwork ∈ dom localRouters.

Global Instance isLocalNetwork_dec host localRouters aNetwork :
  Decision (isLocalNetwork host localRouters aNetwork).
Proof. unfold isLocalNetwork. apply _. Defined.

(** The containers of a service that run on the host and serve a network. *)
Definition isRouterOf (host : Host) (networkUUID : string)
    (aContainer : Container) : Prop :=
  HostUUID aContainer = Host_UUID host ∧ NetworkUUID aContainer = networkUUID.

Global Instance isRouterOf_dec host networkUUID aContainer :
  Decision (isRouterOf host networkUUID aContainer).
Proof. unfold isRouterOf. apply _. Defined.

(** What the resolution from a driver service comes to, said without the
    loops.  The network service for [driver] is the first service of the list
    that is in its stack, has another UUID and is named as its own primary
    service, and the zero value when there is none. *)
Definition isNetworkServiceFor (driver : Service) (services : list Service)
    (service : Service) : Prop :=
  (∃ skipped rest,
     services = skipped ++ service :: rest
     ∧ Forall (λ s, ¬ otherPrimaryService driver s) skipped
     ∧ otherPrimaryService driver service)
  ∨ (Forall (λ s, ¬ otherPrimaryService driver s) services
     ∧ service = zero_Service).

(** A network of the host's environment with a CNI configuration that a
    container of [service] serves on the host. *)
Definition isServedNetwork (host : Host) (service : Service)
    (aNetwork : Network) : Prop :=
  Network_EnvironmentUUID aNetwork = Host_EnvironmentUUID host
  ∧ hasCniConfig aNetwork
  ∧ Exists (isRouterOf host (Network_UUID aNetwork)) (Containers service).

Global Instance isServedNetwork_dec host service aNetwork :
  Decision (isServedNetwork host service aNetwork).
Proof. unfold isServedNetwork. apply _. Defined.

(** [result] is what the resolution from [driver] gives: the routers are the
    containers of the network service on the host, the last one for each
    network, and the networks are the given ones that such a container
    serves. *)
Definition resolvesFrom (driver : Service) (networks : list Network)
    (host : Host) (services : list Service)
    (result : list Network * gmap string Container) : Prop :=
  ∃ service,
    isNetworkServiceFor driver services service
    ∧ (∀ networkUUID,
         result.2 !! networkUUID
         = last (filter (isRouterOf host networkUUID) (Containers service)))
    ∧ result.1 = filter (isServedNetwork host service) networks.

(** ** [GetLocalNetworksAndRoutersFromMetadata] *)

Section Client.

(** The values of Go's [error] interface, and the state of the metadata
    service the client talks to: every fetch is a step on that state. *)
Context {error world : Type}.

(** [metadata.Client], with the three methods called.  A method returns its
    value and its error as Go does; [None] is the nil error. *)
Record Client := {
  GetNetworks : world → (list Network * option error) * world;
  GetSelfHost : world → (Host * option error) * world;
  GetServices : world → (list Service * option error) * world
}.

(** The three results; [None] is a nil slice, a nil map, a nil error. *)
Definition results : Type :=
  option (list Network) * option (gmap string Container) * option error.

Definition GetLocalNetworksAndRoutersFromMetadata (mc : Client) (w : world)
    : results * world :=
  let '((networks, err), w) := GetNetworks mc w in
  match err with
  | Some err => ((None, None, Some err), w)
  | None =>
      let '((host, err), w) := GetSelfHost mc w in
      match err with
      | Some err => ((None, None, Some err), w)
      | None =>
          let '((services, err), w) := GetServices mc w in
          match err with
          | Some err => ((None, None, Some err), w)
          | None =>
              let '(networks, routers) :=
                GetLocalNetworksAndRouters networks host services in
              ((Some networks, Some routers, None), w)
          end
      end
  end.

End Client.

Arguments Client : clear implicits.

(** ** The rest of utils.go, and what the properties below speak of *)

(** The dynamic type of a value. *)
Inductive kind := KMap | KString | KList | KNumber | KBool | KNil.

Definition kind_of (config : node) : kind :=
  match config with
  | NMap _ => KMap
  | NString _ => KString
  | NList _ => KList
  | NNumber _ => KNumber
  | NBool _ => KBool
  | NNil => KNil
  end.

(** The path through nested mappings along the keys [keys]. *)
Definition key_path (keys : list string) : list step := Key <$> keys.

(** The subnet read from the last file of an iteration, [start] without
    files. *)
Definition last_subnet (TrimSpace : string → string) (host : Host)
    (files : list node) (start : string) : string :=
  default start (last ((λ file, (readFile TrimSpace file host).2) <$> files)).

(** A file that passes the test of line 57 once substituted. *)
Definition isBridgeFile (TrimSpace : string → string) (host : Host)
    (file : node) : Prop :=
  isBridge (readFile TrimSpace file host).1.1 (readFile TrimSpace file host).1.2.

(** Lines 163-165. *)
Definition IsContainerConsideredRunning (aContainer : Container) : bool :=
  bool_decide (State aContainer = "running")
  || bool_decide (State aContainer = "starting")
  || bool_decide (State aContainer = "stopping").

(** A container, and a service, with other container states. *)
Definition Container_withState (state : Container → string)
    (aContainer : Container) : Container :=
  {| Container_UUID := Container_UUID aContainer;
     HostUUID := HostUUID aContainer;
     NetworkUUID := NetworkUUID aContainer;
     State := state aContainer |}.

Definition Service_withStates (state : Container → string)
    (service : Service) : Service :=
  {| Service_UUID := Service_UUID service;
     StackUUID := StackUUID service;
     Kind := Kind service;
     Name := Name service;
     PrimaryServiceName := PrimaryServiceName service;
     Containers := Container_withState state <$> Containers service |}.

(** ** [HasIPAddrFromSubnet] *)

(** [syscall.AF_INET]. *)
Definition AF_INET : Z := 2.

Section Netlink.

(** The links and addresses of package [netlink], the addresses of package
    [net], Go's errors, and the state of the kernel the netlink calls act
    on. *)
Context {Link Addr IP error world : Type}.

(** What the function calls: [netlink.LinkByName], [netlink.AddrList],
    [net.ParseCIDR] (its first and third results) and the [Contains] of an
    address's network. *)
Record Net := {
  LinkByName : string → world → (Link * option error) * world;
  AddrList : Link → Z → world → (list Addr * option error) * world;
  ParseCIDR : string → IP * option error;
  Contains : Addr → IP → bool
}.

(** Lines 187-193: the loop returns at the first address whose network
    contains [expected]. *)
Fixpoint anyContains (net : Net) (ips : list Addr) (expected : IP) : bool :=
  match ips with
  | [] => false
  | ip :: ips' =>
      if Contains net ip expected then true else anyContains net ips' expected
  end.

Definition HasIPAddrFromSubnet (net : Net) (interfaceName subnet : string)
    (w : world) : (bool * option error) * world :=
  let '((l, err), w) := LinkByName net interfaceName w in
  match err with
  | Some err => ((false, Some err), w)
  | None =>
      let '((ips, err), w) := AddrList net l AF_INET w in
      match err with
      | Some err => ((false, Some err), w)
      | None =>
          let '(expected, err) := ParseCIDR net subnet in
          match err with
          | Some err => ((false, Some err), w)
          | None => ((anyContains net ips expected, None), w)
          end
      end
  end.

End Netlink.

Arguments Net : clear implicits.

(** ** Concrete configurations *)

Module Examples.

Definition host1 : Host :=
  {| Host_UUID := "h1"; Host_EnvironmentUUID := "env1";
     Labels := {[ "rack" := "r7"; "zone" := "" ]} |}.

(** A host one of whose labels holds a keyword reference itself. *)
Definition host_chained : Host :=
  {| Host_UUID := "h2"; Host_EnvironmentUUID := "env1";
     Labels := {[ "a" := "__host_label__:b"; "b" := "x" ]} |}.

Definition config_chained : node :=
  NMap {[ "k" := NString "__host_label__:a" ]}.

Definition config_labels : node :=
  NMap {[ "rack" := NString "__host_label__: rack ";
          "zone" := NString "__host_label__:zone";
          "none" := NString "__host_label__:missing";
          "bare" := NString "__host_label__";
          "mtu" := NNumber 1500;
          "name" := NString "rancher-cni";
          "ipam" := NMap {[ "subnet" := NString "__host_label__:rack" ]};
          "args" := NList [NString "__host_label__:rack";
                           NMap {[ "in" := NString "__host_label__:rack" ]}] ]}.

Definition bridge_file : node :=
  NMap {[ "type" := NString "rancher-bridge";
          "bridge" := NString "docker0";
          "bridgeSubnet" := NString "10.42.0.0/16" ]}.

Definition network_bridge : Network :=
  {| Network_UUID := "n1"; Network_EnvironmentUUID := "env1";
     Metadata := {[ "cniConfig" := NMap {[ "10-rancher.conf" := bridge_file ]} ]} |}.

Definition network_plain : Network :=
  {| Network_UUID := "n2"; Network_EnvironmentUUID := "env1";
     Metadata := {[ "cniConfig" := NString "none" ]} |}.

Definition network_foreign : Network :=
  {| Network_UUID := "n1"; Network_EnvironmentUUID := "env2";
     Metadata := {[ "cniConfig" := NMap {[ "10-rancher.conf" := bridge_file ]} ]} |}.

Definition router (uuid hostUUID networkUUID : string) : Container :=
  {| Container_UUID := uuid; HostUUID := hostUUID;
     NetworkUUID := networkUUID; State := "running" |}.

Definition driver : Service :=
  {| Service_UUID := "s-driver"; StackUUID := "stack1";
     Kind := "networkDriverService"; Name := "cni-driver";
     PrimaryServiceName := "ipsec"; Containers := [] |}.

Definition driver_other : Service :=
  {| Service_UUID := "s-driver2"; StackUUID := "stack2";
     Kind := "networkDriverService"; Name := "vxlan-driver";
     PrimaryServiceName := "vxlan"; Containers := [] |}.

Definition primary : Service :=
  {| Service_UUID := "s-ipsec"; StackUUID := "stack1";
     Kind := "service"; Name := "ipsec"; PrimaryServiceName := "ipsec";
     Containers := [router "c1" "h1" "n1"; router "c2" "h9" "n1";
                    router "c3" "h1" "n1"] |}.

(** A second service of the same stack that is its own primary. *)
Definition primary_late : Service :=
  {| Service_UUID := "s-late"; StackUUID := "stack1";
     Kind := "service"; Name := "late"; PrimaryServiceName := "late";
     Containers := [router "c4" "h1" "n2"] |}.

Definition sidekick : Service :=
  {| Service_UUID := "s-router"; StackUUID := "stack1";
     Kind := "service"; Name := "router"; PrimaryServiceName := "ipsec";
     Containers := [router "c5" "h1" "n3"] |}.

(** A metadata service that records the fetches made on it. *)
Inductive fetch := FetchNetworks | FetchSelfHost | FetchServices.

Definition client (networks : list Network * option string)
    (host : Host * option string) (services : list Service * option string)
    : Client string (list fetch) :=
  {| GetNetworks := λ w, (networks, w ++ [FetchNetworks]);
     GetSelfHost := λ w, (host, w ++ [FetchSelfHost]);
     GetServices := λ w, (services, w ++ [FetchServices]) |}.

End Examples.

Module MoreExamples.

Import Examples.

(** A file whose bridge comes from a label of the host. *)
Definition labelled_bridge_props : gmap string node :=
  {[ "type" := NString "rancher-bridge";
     "bridge" := NString "__host_label__:rack";
     "bridgeSubnet" := NString "10.42.0.0/16" ]}.

Definition network_labelled : Network :=
  {| Network_UUID := "n4"; Network_EnvironmentUUID := "env1";
     Metadata := {[ "cniConfig" :=
                      NMap {[ "10-rancher.conf" := NMap labelled_bridge_props ]} ]} |}.

(** Files without a bridge: a loopback file and a scalar in place of a
    file. *)
Definition loopback_file : node :=
  NMap {[ "type" := NString "loopback"; "bridgeSubnet" := NString "127.0.0.0/8" ]}.

Definition network_two_files : Network :=
  {| Network_UUID := "n5"; Network_EnvironmentUUID := "env1";
     Metadata := {[ "cniConfig" :=
                      NMap {[ "10-rancher.conf" := bridge_file;
                              "99-loopback.conf" := loopback_file ]} ]} |}.

Definition network_no_bridge : Network :=
  {| Network_UUID := "n6"; Network_EnvironmentUUID := "env1";
     Metadata := {[ "cniConfig" :=
                      NMap {[ "99-loopback.conf" := loopback_file ]} ]} |}.

Definition config_plain : node :=
  NMap {[ "name" := NString "rancher-cni";
          "ipam" := NMap {[ "type" := NString "host-local" ]};
          "args" := NList [NString "__host_label__:rack"] ]}.

(** A configuration whose only keyword string is inside a list. *)
Definition config_list_only : node :=
  NMap {[ "args" := NList [NString "__host_label__:rack"] ]}.

(** The entries of a mapping in two orders. *)
Definition order_ab : list (string * node) :=
  [("a", NString "__host_label__:rack"); ("b", NNumber 1)].

Definition order_ba : list (string * node) :=
  [("b", NNumber 1); ("a", NString "__host_label__:rack")].

(** A kernel with one link, ["docker0"], holding 10.0.0.1/8 and
    172.17.0.1/16; an address is a pair of a 32-bit number and a prefix
    length. *)
Definition kernel : Net string (Z * Z) Z string (list string) :=
  {| LinkByName := λ name w,
       if decide (name = "docker0")
       then (("docker0", None), w ++ ["LinkByName"])
       else (("", Some "Link not found"), w ++ ["LinkByName"]);
     AddrList := λ link family w,
       (([(167772161, 8); (2886795265, 16)]%Z, None), w ++ ["AddrList"]);
     ParseCIDR := λ subnet,
       if decide (subnet = "172.17.0.0/16")
       then (2886795264%Z, None)
       else (0%Z, Some "invalid CIDR address");
     Contains := λ ip expected,
       bool_decide (Z.shiftr ip.1 (32 - ip.2) = Z.shiftr expected (32 - ip.2))%Z |}.

End MoreExamples.

(** * Properties *)

(** ** Strings *)

Lemma cut_Some s sep before after :
  cut s sep = Some (before, after)
  ↔ s = before +:+ String sep after ∧ contains_byte before sep = false.
Proof.
  revert before. induction s as [|c s IH]; intros before; simpl.
  - split; [done|]. intros [Hs _]. by destruct before.
  - case_bool_decide as Hc.
    + subst c. split.
      * intros [= <- <-]. done.
      * intros [Hs Hb]. destruct before as [|b before]; simpl in *.
        -- by injection Hs as ->.
        -- injection Hs as -> _. by rewrite bool_decide_eq_true_2 in Hb.
    + destruct (cut s sep) as [[b a]|] eqn:Hcut.
      * split.
        -- intros [= <- <-]. simpl.
           destruct (proj1 (IH b) eq_refl) as [-> Hb].
           by rewrite bool_decide_eq_false_2.
        -- intros [Hs Hb]. destruct before as [|b' before]; simpl in *.
           ++ by injection Hs as -> _.
           ++ injection Hs as -> Hs. apply orb_false_iff in Hb as [_ Hb].
              assert (Some (b, a) = Some (before, after)) as [= -> ->]
                by (by apply IH). done.
      * split; [done|]. intros [Hs Hb].
        destruct before as [|b' before]; simpl in *.
        -- by injection Hs as -> _.
        -- injection Hs as -> Hs. apply orb_false_iff in Hb as [_ Hb].
           assert (None = Some (before, after)) by (by apply IH). done.
Qed.

Lemma cut_None s sep : cut s sep = None ↔ contains_byte s sep = false.
Proof.
  induction s as [|c s IH]; simpl; [done|].
  case_bool_decide; simpl; [done|].
  rewrite <-IH. by destruct (cut s sep) as [[??]|].
Qed.

(** ** Induction over configuration trees *)

Lemma node_size_lookup (props : gmap string node) k child :
  props !! k = Some child → node_size child < node_size (NMap props).
Proof.
  intros Hk. cbn [node_size].
  rewrite <-(insert_delete_id props k child) by done.
  rewrite map_fold_insert_L; [lia|intros; lia|apply lookup_delete_eq].
Qed.

Lemma node_size_elem (elems : list node) child :
  child ∈ elems → node_size child < node_size (NList elems).
Proof.
  cbn [node_size]. induction 1; simpl; lia.
Qed.

Lemma node_tree_ind (P : node → Prop) :
  (∀ props, map_Forall (λ _ child, P child) props → P (NMap props)) →
  (∀ v, P (NString v)) →
  (∀ elems, Forall P elems → P (NList elems)) →
  (∀ bits, P (NNumber bits)) →
  (∀ b, P (NBool b)) →
  P NNil →
  ∀ config, P config.
Proof.
  intros Hmap Hstring Hlist Hnumber Hbool Hnil config.
  remember (node_size config) as n eqn:Hn. revert config Hn.
  induction n as [n IH] using lt_wf_ind. intros config ->.
  assert (∀ child, node_size child < node_size config → P child) as IH'
    by (intros child Hlt; by eapply IH).
  destruct config as [props|v|elems|bits|b|]; auto.
  - apply Hmap. intros k child Hk. apply IH'. by eapply node_size_lookup.
  - apply Hlist. apply Forall_forall. intros child Hin.
    apply IH'. by apply node_size_elem.
Qed.

(** ** Keyword substitution *)

Section UtilsFacts.

Variable TrimSpace : string → string.

Local Abbreviation Update := (UpdateCNIConfigByKeywords TrimSpace).
Local Abbreviation update1 := (updateValue TrimSpace).
Local Abbreviation labelValueOf := (hostLabelValue TrimSpace).

Lemma Update_NMap props host :
  Update (NMap props) host = NMap (update1 host <$> props).
Proof. reflexivity. Qed.

Lemma Update_not_map config host :
  (∀ props, config ≠ NMap props) → Update config host = config.
Proof. destruct config; naive_solver. Qed.

Lemma updateValue_not_string aValue host :
  (∀ v, aValue ≠ NString v) → update1 host aValue = Update aValue host.
Proof. destruct aValue; naive_solver. Qed.

Lemma updateValue_plain host v :
  HasPrefix v hostLabelKeyword = false → update1 host (NString v) = NString v.
Proof. intros Hv. unfold updateValue. by rewrite Hv. Qed.

Lemma updateValue_keyword host v :
  HasPrefix v hostLabelKeyword = true →
  update1 host (NString v) = NString (labelValueOf host v).
Proof. intros Hv. unfold updateValue. by rewrite Hv. Qed.

(** A value the loop body leaves alone is left alone as a whole
    configuration too. *)
Lemma updateValue_fixed_Update host t :
  update1 host t = t → Update t host = t.
Proof. destruct t; naive_solver. Qed.

(** The loop as written, in whatever order the runtime ranges over the
    mapping, stores exactly the mapped values. *)
Lemma range_insert_union (g : node → node) order (props : gmap string node) :
  NoDup (order.*1) →
  foldl (λ props '(aKey, aValue), <[aKey := g aValue]> props) props order
  = (g <$> list_to_map order) ∪ props.
Proof.
  revert props. induction order as [|[aKey aValue] order IH]; intros props Hnd.
  - simpl. by rewrite fmap_empty, (left_id_L ∅ (∪)).
  - rewrite fmap_cons in Hnd. apply NoDup_cons in Hnd as [Hfresh Hnd].
    cbn [foldl list_to_map foldr]. rewrite IH by done. simpl.
    rewrite fmap_insert, <-insert_union_l. symmetry. apply insert_union_r.
    rewrite lookup_fmap. by rewrite (not_elem_of_list_to_map_1 _ aKey).
Qed.

Lemma UpdateCNIConfigByKeywords_range_fmap order host props :
  range_order props order →
  UpdateCNIConfigByKeywords_range TrimSpace order host props
  = update1 host <$> props.
Proof.
  intros Horder. unfold UpdateCNIConfigByKeywords_range.
  rewrite (range_insert_union (update1 host)).
  - assert (list_to_map order = props) as ->.
    { unfold range_order in Horder.
      rewrite (list_to_map_proper order (map_to_list props)); [|..|done].
      - apply list_to_map_to_list.
      - rewrite Horder. apply NoDup_fst_map_to_list. }
    apply map_eq. intros k. rewrite lookup_union, !lookup_fmap.
    by destruct (props !! k).
  - unfold range_order in Horder. rewrite Horder. apply NoDup_fst_map_to_list.
Qed.

Lemma Update_range order host props :
  range_order props order →
  Update (NMap props) host
  = NMap (UpdateCNIConfigByKeywords_range TrimSpace order host props).
Proof. intros. by rewrite UpdateCNIConfigByKeywords_range_fmap. Qed.

(** A subtree the loop body leaves alone stays where it is. *)
Lemma subtree_fixed host path : ∀ config t,
  subtree config path = Some t →
  update1 host t = t →
  subtree (Update config host) path = Some t.
Proof.
  induction path as [|[k|i] path IH]; intros config t Hsub Hfix.
  - injection Hsub as ->. simpl. f_equal. by apply updateValue_fixed_Update.
  - destruct config as [props| | | | |]; try done.
    rewrite Update_NMap. cbn [subtree] in *. rewrite lookup_fmap.
    destruct (props !! k) as [child|] eqn:Hk; [|done].
    cbn [mbind option_bind fmap option_fmap option_map] in *.
    destruct child as [props'|v|elems|bits|b|];
      try (rewrite updateValue_not_string by done; by apply IH).
    destruct path as [|[?|?] ?]; [|done..].
    injection Hsub as <-. by rewrite Hfix.
  - destruct config; try done.
Qed.

Lemma subtree_app config path below :
  subtree config (path ++ below) = subtree config path ≫= λ t, subtree t below.
Proof.
  revert config. induction path as [|[k|i] path IH]; intros config; simpl.
  - done.
  - destruct config as [props| | | | |]; try done.
    destruct (props !! k); simpl; [apply IH|done].
  - destruct config as [|?|elems| | |]; try done.
    destruct (elems !! i); simpl; [apply IH|done].
Qed.

Lemma hostLabelValue_cut host v before after :
  cut v ":" = Some (before, after) →
  labelValueOf host v = index_string (Labels host) (TrimSpace after).
Proof.
  intros Hcut. unfold hostLabelValue, SplitN_2. rewrite Hcut. simpl.
  destruct (decide (1 < 2)) as [_|?]; [|lia].
  by destruct (decide (index_string (Labels host) (TrimSpace after) ≠ ""))
    as [?|?%dec_stable].
Qed.

Lemma hostLabelValue_no_colon host v :
  cut v ":" = None → labelValueOf host v = "".
Proof.
  intros Hcut. unfold hostLabelValue, SplitN_2. rewrite Hcut. simpl.
  destruct (decide (1 < 1)) as [?|_]; [lia|done].
Qed.

(** What a substituted value can be: empty, or the value of a label. *)
Lemma hostLabelValue_cases host v :
  labelValueOf host v = ""
  ∨ ∃ label, Labels host !! label = Some (labelValueOf host v).
Proof.
  destruct (cut v ":") as [[before after]|] eqn:Hcut.
  - rewrite (hostLabelValue_cut _ _ _ _ Hcut). unfold index_string.
    destruct (Labels host !! TrimSpace after) as [labelValue|] eqn:Hl.
    + right. by exists (TrimSpace after).
    + by left.
  - left. by apply hostLabelValue_no_colon.
Qed.

(** C4: in a mapping, a string value that opens with ["__host_label__"] is
    replaced.  When it holds a [':'], the label is the trimmed part after the
    first [':'] and the new value is [host.Labels[label]] if that is a
    non-empty string, and the empty string if the label is absent or empty;
    when it holds no [':'], the new value is the empty string. *)
Theorem UpdateCNIConfigByKeywords_host_label props host aKey v :
  props !! aKey = Some (NString v) →
  HasPrefix v hostLabelKeyword = true →
  ∃ props',
    Update (NMap props) host = NMap props'
    ∧ (contains_byte v ":" = true →
       ∃ before after,
         v = before +:+ String ":" after ∧ contains_byte before ":" = false)
    ∧ (∀ before after,
         v = before +:+ String ":" after →
         contains_byte before ":" = false →
         (∀ labelValue,
            Labels host !! TrimSpace after = Some labelValue →
            labelValue ≠ "" →
            props' !! aKey = Some (NString labelValue))
         ∧ (Labels host !! TrimSpace after = None
            ∨ Labels host !! TrimSpace after = Some "" →
            props' !! aKey = Some (NString "")))
    ∧ (contains_byte v ":" = false → props' !! aKey = Some (NString "")).
Proof.
  intros Hk Hprefix. exists (update1 host <$> props).
  assert ((update1 host <$> props) !! aKey
          = Some (NString (labelValueOf host v))) as Hnew.
  { by rewrite lookup_fmap, Hk, <-updateValue_keyword. }
  split; [apply Update_NMap|]. split; [|split].
  - intros Hcolon. destruct (cut v ":") as [[before after]|] eqn:Hcut.
    + exists before, after. by apply cut_Some.
    + apply cut_None in Hcut. congruence.
  - intros before after Hv Hfirst.
    assert (cut v ":" = Some (before, after)) as Hcut by (by apply cut_Some).
    rewrite Hnew, (hostLabelValue_cut _ _ _ _ Hcut). unfold index_string.
    split.
    + intros labelValue -> _. done.
    + by intros [-> | ->].
  - intros Hcolon. apply cut_None in Hcolon.
    by rewrite Hnew, hostLabelValue_no_colon.
Qed.

(** C5 (amended): for a host none of whose label values opens with
    ["__host_label__"], substituting twice gives the tree that substituting
    once gives. *)
Theorem UpdateCNIConfigByKeywords_idempotent config host :
  (∀ label labelValue,
     Labels host !! label = Some labelValue →
     HasPrefix labelValue hostLabelKeyword = false) →
  Update (Update config host) host = Update config host.
Proof.
  intros Hlabels.
  induction config as [props IH|v|elems _|bits|b|] using node_tree_ind;
    try done.
  rewrite !Update_NMap. f_equal. rewrite <-map_fmap_compose.
  apply map_fmap_ext. intros k child Hk. simpl.
  specialize (IH k child Hk). simpl in IH.
  destruct child as [props'|v|elems|bits|b|]; try done.
  destruct (HasPrefix v hostLabelKeyword) eqn:Hv.
  - rewrite updateValue_keyword by done. apply updateValue_plain.
    destruct (hostLabelValue_cases host v) as [-> | [label Hl]]; [done|].
    by eapply Hlabels.
  - rewrite updateValue_plain by done. by apply updateValue_plain.
Qed.

(** C6: a string anywhere in the tree that does not open with
    ["__host_label__"] is the same string, at the same place, after the
    substitution; and a configuration that is not a mapping is returned as it
    is. *)
Theorem UpdateCNIConfigByKeywords_plain_unchanged config host :
  (∀ path v,
     subtree config path = Some (NString v) →
     HasPrefix v hostLabelKeyword = false →
     subtree (Update config host) path = Some (NString v))
  ∧ ((∀ props, config ≠ NMap props) → Update config host = config).
Proof.
  split.
  - intros path v Hsub Hv. apply subtree_fixed; [done|].
    by apply updateValue_plain.
  - apply Update_not_map.
Qed.

(** C10: a list is returned as it is, so a list anywhere in the tree is kept
    whole, and with it every value below it, at any depth: keyword strings in
    its elements, and in mappings inside its elements, are not substituted. *)
Theorem UpdateCNIConfigByKeywords_list_untouched host :
  (∀ elems, Update (NList elems) host = NList elems)
  ∧ (∀ config path elems,
       subtree config path = Some (NList elems) →
       subtree (Update config host) path = Some (NList elems))
  ∧ (∀ config path elems below t,
       subtree config path = Some (NList elems) →
       subtree (NList elems) below = Some t →
       subtree (Update config host) (path ++ below) = Some t).
Proof.
  assert (∀ config path elems,
            subtree config path = Some (NList elems) →
            subtree (Update config host) path = Some (NList elems)) as Hlist.
  { intros config path elems Hsub. by apply subtree_fixed. }
  split; [done|]. split; [done|].
  intros config path elems below t Hsub Hbelow.
  rewrite subtree_app, (Hlist _ _ _ Hsub). done.
Qed.

End UtilsFacts.

(** ** Bridge information *)

Section BridgeFacts.

Variable TrimSpace : string → string.

Local Abbreviation Update := (UpdateCNIConfigByKeywords TrimSpace).
Local Abbreviation range := (GetBridgeInfo_range TrimSpace).
Local Abbreviation read := (readFile TrimSpace).

Lemma GetBridgeInfo_range_found file files host bridge bridgeSubnet cniType b s :
  read file host = (cniType, b, s) →
  isBridge cniType b →
  range (file :: files) host bridge bridgeSubnet = (b, s).
Proof.
  intros Hread Hbridge. cbn [GetBridgeInfo_range]. rewrite Hread.
  by rewrite decide_True.
Qed.

Lemma GetBridgeInfo_range_next file files host bridge bridgeSubnet cniType b s :
  read file host = (cniType, b, s) →
  ¬ isBridge cniType b →
  range (file :: files) host bridge bridgeSubnet = range files host bridge s.
Proof.
  intros Hread Hbridge. cbn [GetBridgeInfo_range]. rewrite Hread.
  by rewrite decide_False.
Qed.

(** The files before the first bridge file leave no trace in the result. *)
Lemma GetBridgeInfo_range_first skipped file files host cniType b s :
  Forall (λ f, ¬ isBridge (read f host).1.1 (read f host).1.2) skipped →
  read file host = (cniType, b, s) →
  isBridge cniType b →
  ∀ bridge bridgeSubnet,
    range (skipped ++ file :: files) host bridge bridgeSubnet = (b, s).
Proof.
  intros Hskipped Hread Hbridge.
  induction Hskipped as [|f skipped Hf _ IH]; intros bridge bridgeSubnet.
  - by eapply GetBridgeInfo_range_found.
  - destruct (read f host) as [[t' b'] s'] eqn:Hf'. simpl in Hf.
    rewrite <-app_comm_cons.
    erewrite GetBridgeInfo_range_next by done. apply IH.
Qed.

Lemma readFile_plain props host k v :
  props !! k = Some (NString v) →
  HasPrefix v hostLabelKeyword = false →
  string_field (updateValue TrimSpace host <$> props) k = v.
Proof.
  intros Hk Hv. unfold string_field.
  rewrite lookup_fmap, Hk. cbn [fmap option_fmap option_map].
  by rewrite updateValue_plain.
Qed.

Lemma cniConfig_Some network props :
  Metadata network !! "cniConfig" = Some (NMap props) →
  cniConfig network = props.
Proof. intros Hm. unfold cniConfig, map_field. by rewrite Hm. Qed.

Lemma cniConfig_empty network :
  (Metadata network !! "cniConfig" = None
   ∨ ∃ v, Metadata network !! "cniConfig" = Some v ∧ ∀ props, v ≠ NMap props) →
  cniConfig network = ∅.
Proof.
  unfold cniConfig, map_field. intros [-> | (v & -> & Hv)]; [done|].
  destruct v; naive_solver.
Qed.

(** C8: with a [cniConfig] of one file whose strings are
    [type = "rancher-bridge"], [bridge = "docker0"] and
    [bridgeSubnet = "10.42.0.0/16"], the result is
    [("docker0", "10.42.0.0/16")].  In general, in any order of iteration, the
    first file that reads, after substitution, as type ["rancher-bridge"] with
    a non-empty bridge gives the bridge name and ends the loop, and the
    subnet returned is the one read from that file. *)
Theorem GetBridgeInfo_bridge_file host :
  (∀ network name props,
     Metadata network !! "cniConfig" = Some (NMap {[ name := NMap props ]}) →
     props !! "type" = Some (NString "rancher-bridge") →
     props !! "bridge" = Some (NString "docker0") →
     props !! "bridgeSubnet" = Some (NString "10.42.0.0/16") →
     GetBridgeInfo TrimSpace network host = ("docker0", "10.42.0.0/16")
     ∧ ∀ result,
         GetBridgeInfo_returns TrimSpace network host result
         ↔ result = ("docker0", "10.42.0.0/16"))
  ∧ (∀ network order skipped name file rest checkBridge bridgeSubnet,
       range_order (cniConfig network) order →
       order = skipped ++ (name, file) :: rest →
       Forall (λ f, ¬ isBridge (read f.2 host).1.1 (read f.2 host).1.2) skipped →
       read file host = ("rancher-bridge", checkBridge, bridgeSubnet) →
       checkBridge ≠ "" →
       GetBridgeInfo_in TrimSpace order host = (checkBridge, bridgeSubnet)).
Proof.
  split.
  - intros network name props Hconf Htype Hbridge Hsubnet.
    assert (GetBridgeInfo_in TrimSpace [(name, NMap props)] host
            = ("docker0", "10.42.0.0/16")) as Hrun.
    { unfold GetBridgeInfo_in. cbn [fmap list_fmap snd].
      eapply GetBridgeInfo_range_found with (cniType := "rancher-bridge").
      - unfold readFile. rewrite Update_NMap.
        cbv zeta.
        rewrite (readFile_plain props host "type" _ Htype eq_refl).
        rewrite (readFile_plain props host "bridge" _ Hbridge eq_refl).
        by rewrite (readFile_plain props host "bridgeSubnet" _ Hsubnet eq_refl).
      - done. }
    unfold GetBridgeInfo, GetBridgeInfo_returns, range_order.
    rewrite (cniConfig_Some _ _ Hconf), map_to_list_singleton.
    split; [done|]. intros result. split.
    + intros (order & Horder%Permutation_singleton_r & <-). by subst order.
    + intros ->. by exists [(name, NMap props)].
  - intros network order skipped name file rest checkBridge bridgeSubnet
      _ -> Hskipped Hread Hne.
    unfold GetBridgeInfo_in. rewrite fmap_app, fmap_cons. simpl.
    eapply GetBridgeInfo_range_first; [|done..].
    by apply Forall_fmap.
Qed.

(** C9: without a ["cniConfig"] entry, or with one that is not a mapping with
    string keys, there is nothing to iterate over and the result is the pair
    of empty strings. *)
Theorem GetBridgeInfo_no_cniConfig network host :
  (Metadata network !! "cniConfig" = None
   ∨ ∃ v, Metadata network !! "cniConfig" = Some v ∧ ∀ props, v ≠ NMap props) →
  (∀ order, range_order (cniConfig network) order → order = [])
  ∧ (∀ result,
       GetBridgeInfo_returns TrimSpace network host result ↔ result = ("", ""))
  ∧ GetBridgeInfo TrimSpace network host = ("", "").
Proof.
  intros Hconf%cniConfig_empty.
  unfold GetBridgeInfo, GetBridgeInfo_returns, range_order.
  rewrite Hconf, map_to_list_empty. split; [|split].
  - intros order. apply Permutation_nil_r.
  - intros result. split.
    + intros (order & ->%Permutation_nil_r & <-). done.
    + intros ->. by exists [].
  - done.
Qed.

End BridgeFacts.

(** ** The local networks and routers *)

Lemma foldl_append_filter {A} (P : A → Prop) `{!∀ x, Decision (P x)}
    (l acc : list A) :
  foldl (λ acc x, if decide (P x) then acc ++ [x] else acc) acc l
  = acc ++ filter P l.
Proof.
  revert acc. induction l as [|x l IH]; intros acc; simpl.
  - by rewrite app_nil_r.
  - rewrite IH, filter_cons. destruct (decide (P x)); [|done].
    by rewrite <-app_assoc.
Qed.

Lemma unfilteredCniDriverServices_filter services :
  unfilteredCniDriverServices services
  = filter (λ service, Kind service = "networkDriverService") services.
Proof.
  unfold unfilteredCniDriverServices.
  by rewrite (foldl_append_filter (λ service, Kind service = _)).
Qed.

Lemma named_loop_filter (candidates acc : list Service) :
  foldl (λ drivers service,
           if decide (Name service ≠ "cni-driver")
           then drivers
           else drivers ++ [service])
        acc candidates
  = acc ++ filter (λ service, Name service = "cni-driver") candidates.
Proof.
  revert acc. induction candidates as [|x l IH]; intros acc; simpl.
  - by rewrite app_nil_r.
  - rewrite IH, filter_cons.
    destruct (decide (Name x ≠ "cni-driver")) as [Hne|Heq%dec_stable].
    + by rewrite decide_False.
    + by rewrite decide_True, <-app_assoc.
Qed.

Lemma cniDriverServices_single services driver :
  filter (λ service, Kind service = "networkDriverService") services = [driver] →
  cniDriverServices services = [driver].
Proof.
  intros Hone. unfold cniDriverServices.
  rewrite unfilteredCniDriverServices_filter, Hone. done.
Qed.

Lemma findNetworkService_first driver skipped service rest start :
  Forall (λ s, ¬ otherPrimaryService driver s) skipped →
  otherPrimaryService driver service →
  findNetworkService driver (skipped ++ service :: rest) start = service.
Proof.
  intros Hskipped Hservice.
  induction Hskipped as [|s skipped Hs _ IH]; simpl.
  - by rewrite decide_True.
  - by rewrite decide_False.
Qed.

Lemma localRouters_range_lookup (containers : list Container) host
    (start : gmap string Container) networkUUID :
  foldl (λ localRouters aContainer,
           if decide (HostUUID aContainer = Host_UUID host)
           then <[NetworkUUID aContainer := aContainer]> localRouters
           else localRouters)
        start containers !! networkUUID
  = match last (filter (isRouterOf host networkUUID) containers) with
    | Some aContainer => Some aContainer
    | None => start !! networkUUID
    end.
Proof.
  revert start. induction containers as [|c cs IH]; intros start; [done|].
  cbn [foldl]. rewrite IH, filter_cons. clear IH.
  destruct (decide (isRouterOf host networkUUID c)) as [[Hhost Hnet]|Hno].
  - rewrite last_cons.
    destruct (last (filter (isRouterOf host networkUUID) cs)); [done|].
    rewrite decide_True by done. subst networkUUID. apply lookup_insert_eq.
  - destruct (last (filter (isRouterOf host networkUUID) cs)); [done|].
    destruct (decide (HostUUID c = Host_UUID host)) as [Hhost|]; [|done].
    apply lookup_insert_ne. intros Hnet. by apply Hno.
Qed.

Lemma localRoutersOf_lookup containers host networkUUID :
  localRoutersOf containers host !! networkUUID
  = last (filter (isRouterOf host networkUUID) containers).
Proof.
  unfold localRoutersOf. rewrite localRouters_range_lookup.
  by destruct (last _).
Qed.

Lemma map_field_hasCniConfig aNetwork :
  (map_field (Metadata aNetwork) "cniConfig").2 = true ↔ hasCniConfig aNetwork.
Proof.
  unfold map_field, hasCniConfig.
  destruct (Metadata aNetwork !! "cniConfig") as [[props| | | | |]|]; simpl;
    split; try done; try (by intros [? ?]).
  intros _. by exists props.
Qed.

Lemma localNetworks_range_filter networks host localRouters start :
  foldl (λ localNetworks aNetwork,
           if decide (Network_EnvironmentUUID aNetwork ≠ Host_EnvironmentUUID host)
           then localNetworks
           else if negb (map_field (Metadata aNetwork) "cniConfig").2
           then localNetworks
           else if negb (bool_decide (is_Some (localRouters !! Network_UUID aNetwork)))
           then localNetworks
           else localNetworks ++ [aNetwork])
        start networks
  = start ++ filter (isLocalNetwork host localRouters) networks.
Proof.
  revert start. induction networks as [|n networks IH]; intros start.
  { simpl. by rewrite app_nil_r. }
  cbn [foldl]. rewrite IH, filter_cons. clear IH.
  destruct (decide (Network_EnvironmentUUID n ≠ Host_EnvironmentUUID host))
    as [Henv|Henv%dec_stable].
  { rewrite decide_False; [done|]. by intros [? _]. }
  destruct ((map_field (Metadata n) "cniConfig").2) eqn:Hconf; simpl.
  2:{ rewrite decide_False; [done|]. intros (_ & Hc%map_field_hasCniConfig & _).
      congruence. }
  apply map_field_hasCniConfig in Hconf.
  case_bool_decide as Hrouter; simpl.
  - rewrite decide_True; [by rewrite <-app_assoc|].
    split; [done|]. split; [done|]. by apply elem_of_dom.
  - rewrite decide_False; [done|]. intros (_ & _ & ?%elem_of_dom). done.
Qed.

Lemma localNetworksOf_filter networks host localRouters :
  localNetworksOf networks host localRouters
  = filter (isLocalNetwork host localRouters) networks.
Proof. apply localNetworks_range_filter. Qed.

(** C1 (amended): with exactly one service of kind ["networkDriverService"],
    the first service in the list that is in its stack, has another UUID and
    is named as its own primary service is taken as the network service; the
    routers returned are the containers of that service on the host, each
    under its network, the last one in the list where several serve the same
    network. *)
Theorem GetLocalNetworksAndRouters_network_service
    networks host services driver skipped service rest :
  filter (λ s, Kind s = "networkDriverService") services = [driver] →
  services = skipped ++ service :: rest →
  otherPrimaryService driver service →
  Forall (λ s, ¬ otherPrimaryService driver s) skipped →
  networkService services = service
  ∧ ∀ networkUUID,
      (GetLocalNetworksAndRouters networks host services).2 !! networkUUID
      = last (filter (isRouterOf host networkUUID) (Containers service)).
Proof.
  intros Hone Hsplit Hservice Hskipped.
  assert (networkService services = service) as Hns.
  { unfold networkService. rewrite (cniDriverServices_single _ _ Hone).
    simpl. rewrite Hsplit. by apply findNetworkService_first. }
  split; [done|]. intros networkUUID.
  unfold GetLocalNetworksAndRouters, resolveWithDrivers. simpl.
  fold (networkService services). rewrite Hns. apply localRoutersOf_lookup.
Qed.

(** C2: the networks returned are the given networks, in their order, that
    are in the environment of the host, carry a ["cniConfig"] mapping and have
    their UUID among the keys of the routers returned; none of them is in
    another environment than the host. *)
Theorem GetLocalNetworksAndRouters_localNetworks networks host services :
  (GetLocalNetworksAndRouters networks host services).1
  = filter (isLocalNetwork host
              (GetLocalNetworksAndRouters networks host services).2)
           networks
  ∧ Forall (λ aNetwork,
              Network_EnvironmentUUID aNetwork = Host_EnvironmentUUID host)
           (GetLocalNetworksAndRouters networks host services).1.
Proof.
  assert ((GetLocalNetworksAndRouters networks host services).1
          = filter (isLocalNetwork host
                      (GetLocalNetworksAndRouters networks host services).2)
                   networks) as Hfilter.
  { unfold GetLocalNetworksAndRouters, resolveWithDrivers. simpl.
    apply localNetworksOf_filter. }
  split; [done|]. rewrite Hfilter. apply Forall_forall.
  intros aNetwork [[Henv _] _]%list_elem_of_filter. done.
Qed.

Lemma filter_none {A} (P : A → Prop) `{!∀ x, Decision (P x)} (l : list A) :
  (∀ x, x ∈ l → ¬ P x) → filter P l = [].
Proof.
  induction l as [|x l IH]; intros Hnone; [done|].
  rewrite filter_cons_False by (apply Hnone; set_solver).
  apply IH. intros y Hy. apply Hnone. set_solver.
Qed.

Lemma resolveWithDrivers_nil networks host services :
  resolveWithDrivers [] networks host services = ([], ∅).
Proof.
  unfold resolveWithDrivers, networkServiceOf.
  change (localRoutersOf (Containers zero_Service) host)
    with (∅ : gmap string Container).
  f_equal. rewrite localNetworksOf_filter. apply filter_none.
  intros aNetwork _ (_ & _ & [aContainer Hrouter]%elem_of_dom).
  by apply lookup_empty_Some in Hrouter.
Qed.

Lemma findNetworkService_isNetworkServiceFor driver services :
  isNetworkServiceFor driver services
    (findNetworkService driver services zero_Service).
Proof.
  induction services as [|s services IH]; cbn [findNetworkService].
  - right. by split.
  - destruct (decide (otherPrimaryService driver s)) as [Hs|Hs].
    + left. by exists [], services.
    + destruct IH as [(skipped & rest & Heq & Hskipped & Hservice)|[Hnone Hzero]].
      * left. exists (s :: skipped), rest.
        split; [simpl; f_equal; exact Heq|]. split; [by constructor|done].
      * right. split; [by constructor|done].
Qed.

Lemma first_match_unique {A} (P : A → Prop) (skipped1 skipped2 rest1 rest2 : list A) x y :
  skipped1 ++ x :: rest1 = skipped2 ++ y :: rest2 →
  Forall (λ a, ¬ P a) skipped1 → P x →
  Forall (λ a, ¬ P a) skipped2 → P y →
  x = y.
Proof.
  revert skipped2.
  induction skipped1 as [|a skipped1 IH]; intros [|b skipped2] Heq H1 Hx H2 Hy;
    simpl in Heq.
  - by injection Heq.
  - injection Heq as -> _. apply Forall_cons in H2 as [Hb _]. by destruct Hb.
  - injection Heq as -> _. apply Forall_cons in H1 as [Ha _]. by destruct Ha.
  - injection Heq as -> Heq.
    apply Forall_cons in H1 as [_ H1]. apply Forall_cons in H2 as [_ H2].
    by eapply IH.
Qed.

(** The description leaves one network service, hence one result. *)
Lemma isNetworkServiceFor_unique driver services service1 service2 :
  isNetworkServiceFor driver services service1 →
  isNetworkServiceFor driver services service2 →
  service1 = service2.
Proof.
  intros [(s1 & r1 & Heq1 & Hs1 & Hx)|[Hnone1 ->]]
         [(s2 & r2 & Heq2 & Hs2 & Hy)|[Hnone2 ->]].
  - rewrite Heq1 in Heq2.
    by apply (first_match_unique _ _ _ _ _ _ _ Heq2 Hs1 Hx Hs2 Hy).
  - rewrite Heq1 in Hnone2.
    apply Forall_app in Hnone2 as [_ [Hno _]%Forall_cons]. by destruct Hno.
  - rewrite Heq2 in Hnone1.
    apply Forall_app in Hnone1 as [_ [Hno _]%Forall_cons]. by destruct Hno.
  - done.
Qed.

Lemma resolvesFrom_unique driver networks host services result1 result2 :
  resolvesFrom driver networks host services result1 →
  resolvesFrom driver networks host services result2 →
  result1 = result2.
Proof.
  intros (service1 & Hfor1 & Hrouters1 & Hnetworks1)
         (service2 & Hfor2 & Hrouters2 & Hnetworks2).
  assert (service1 = service2) as -> by (by eapply isNetworkServiceFor_unique).
  destruct result1 as [n1 r1], result2 as [n2 r2]. simpl in *. f_equal.
  - congruence.
  - apply map_eq. intros k. by rewrite Hrouters1, Hrouters2.
Qed.

Lemma isLocalNetwork_isServedNetwork host service aNetwork :
  isLocalNetwork host (localRoutersOf (Containers service) host) aNetwork
  ↔ isServedNetwork host service aNetwork.
Proof.
  unfold isLocalNetwork, isServedNetwork.
  rewrite elem_of_dom, localRoutersOf_lookup, last_is_Some, Exists_exists.
  split; intros (Henv & Hconf & Hrouter); (split; [done|]); (split; [done|]).
  - destruct (filter _ (Containers service)) as [|c cs] eqn:Hfilter; [done|].
    assert (c ∈ filter (isRouterOf host (Network_UUID aNetwork))
                  (Containers service)) as [Hc Hin]%list_elem_of_filter
      by (rewrite Hfilter; by left).
    by exists c.
  - destruct Hrouter as (c & Hin & Hc). intros Hnil.
    exact (filter_nil_not_elem_of _ _ _ Hnil Hc Hin).
Qed.

(** The rest of the function on its driver services: nothing without one, and
    with one or more the resolution from the first. *)
Lemma GetLocalNetworksAndRouters_from_drivers networks host services driver rest :
  cniDriverServices services = driver :: rest →
  isNetworkServiceFor driver services (networkService services)
  ∧ resolvesFrom driver networks host services
      (GetLocalNetworksAndRouters networks host services).
Proof.
  intros Hdrivers.
  assert (networkService services
          = findNetworkService driver services zero_Service) as Hns.
  { unfold networkService. by rewrite Hdrivers. }
  split.
  - rewrite Hns. apply findNetworkService_isNetworkServiceFor.
  - exists (networkService services). split; [|split].
    + rewrite Hns. apply findNetworkService_isNetworkServiceFor.
    + intros networkUUID.
      unfold GetLocalNetworksAndRouters, resolveWithDrivers. cbn [snd].
      fold (networkService services). apply localRoutersOf_lookup.
    + unfold GetLocalNetworksAndRouters, resolveWithDrivers. cbn [fst].
      fold (networkService services). rewrite localNetworksOf_filter.
      apply list_filter_iff. intros aNetwork.
      apply isLocalNetwork_isServedNetwork.
Qed.

(** C7: when the services of kind ["networkDriverService"] are not exactly
    one, those named ["cni-driver"] are kept and the rest of the resolution
    runs on them: without any the results are empty, otherwise they are those
    of the resolution from the first one kept.  With two such services, one
    named ["cni-driver"] and one not, the one named ["cni-driver"] alone is
    kept, and the results are those of the resolution from it, as they are
    from the candidate when there is a single one. *)
Theorem GetLocalNetworksAndRouters_cni_driver networks host services :
  (length (filter (λ s, Kind s = "networkDriverService") services) ≠ 1 →
   cniDriverServices services
   = filter (λ s, Name s = "cni-driver")
       (filter (λ s, Kind s = "networkDriverService") services)
   ∧ (filter (λ s, Name s = "cni-driver")
        (filter (λ s, Kind s = "networkDriverService") services) = [] →
      GetLocalNetworksAndRouters networks host services = ([], ∅))
   ∧ (∀ kept rest,
        filter (λ s, Name s = "cni-driver")
          (filter (λ s, Kind s = "networkDriverService") services)
        = kept :: rest →
        isNetworkServiceFor kept services (networkService services)
        ∧ resolvesFrom kept networks host services
            (GetLocalNetworksAndRouters networks host services)))
  ∧ (∀ named other,
       (filter (λ s, Kind s = "networkDriverService") services = [named; other]
        ∨ filter (λ s, Kind s = "networkDriverService") services = [other; named]) →
       Name named = "cni-driver" →
       Name other ≠ "cni-driver" →
       cniDriverServices services = [named]
       ∧ isNetworkServiceFor named services (networkService services)
       ∧ resolvesFrom named networks host services
           (GetLocalNetworksAndRouters networks host services))
  ∧ (∀ single,
       filter (λ s, Kind s = "networkDriverService") services = [single] →
       cniDriverServices services = [single]
       ∧ isNetworkServiceFor single services (networkService services)
       ∧ resolvesFrom single networks host services
           (GetLocalNetworksAndRouters networks host services)).
Proof.
  assert (length (filter (λ s, Kind s = "networkDriverService") services) ≠ 1 →
          cniDriverServices services
          = filter (λ s, Name s = "cni-driver")
              (filter (λ s, Kind s = "networkDriverService") services))
    as Hfallback.
  { intros Hlen. unfold cniDriverServices.
    rewrite unfilteredCniDriverServices_filter, decide_True by done.
    by rewrite named_loop_filter. }
  split; [|split].
  - intros Hlen. split; [by apply Hfallback|]. split.
    + intros Hnone. unfold GetLocalNetworksAndRouters.
      rewrite (Hfallback Hlen), Hnone. apply resolveWithDrivers_nil.
    + intros kept rest Hkept.
      apply (GetLocalNetworksAndRouters_from_drivers _ _ _ kept rest).
      by rewrite (Hfallback Hlen).
  - intros named other Htwo Hnamed Hother.
    assert (cniDriverServices services = [named]) as Hkept.
    { rewrite Hfallback by (by destruct Htwo as [-> | ->]).
      destruct Htwo as [-> | ->].
      - rewrite filter_cons_True, filter_cons_False by done. done.
      - rewrite filter_cons_False, filter_cons_True by done. done. }
    split; [done|].
    by apply (GetLocalNetworksAndRouters_from_drivers _ _ _ named []).
  - intros single Hone.
    assert (cniDriverServices services = [single]) as Hkept
      by (by apply cniDriverServices_single).
    split; [done|].
    by apply (GetLocalNetworksAndRouters_from_drivers _ _ _ single []).
Qed.

(** ** The metadata front end *)

Section ClientFacts.

Context {error world : Type}.

(** C3: an error from [GetNetworks], [GetSelfHost] or [GetServices] is
    returned as it is, with nil networks and nil routers; the first fetch to
    fail ends the call, the state of the metadata service being the one that
    fetch left; when the three succeed, the results are those of
    [GetLocalNetworksAndRouters] with a nil error. *)
Theorem GetLocalNetworksAndRoutersFromMetadata_results
    (mc : Client error world) (w : world) :
  (∀ networks err w1,
     GetNetworks mc w = ((networks, Some err), w1) →
     GetLocalNetworksAndRoutersFromMetadata mc w = ((None, None, Some err), w1))
  ∧ (∀ networks w1 host err w2,
       GetNetworks mc w = ((networks, None), w1) →
       GetSelfHost mc w1 = ((host, Some err), w2) →
       GetLocalNetworksAndRoutersFromMetadata mc w
       = ((None, None, Some err), w2))
  ∧ (∀ networks w1 host w2 services err w3,
       GetNetworks mc w = ((networks, None), w1) →
       GetSelfHost mc w1 = ((host, None), w2) →
       GetServices mc w2 = ((services, Some err), w3) →
       GetLocalNetworksAndRoutersFromMetadata mc w
       = ((None, None, Some err), w3))
  ∧ (∀ networks w1 host w2 services w3,
       GetNetworks mc w = ((networks, None), w1) →
       GetSelfHost mc w1 = ((host, None), w2) →
       GetServices mc w2 = ((services, None), w3) →
       GetLocalNetworksAndRoutersFromMetadata mc w
       = ((Some (GetLocalNetworksAndRouters networks host services).1,
           Some (GetLocalNetworksAndRouters networks host services).2,
           None), w3)).
Proof.
  unfold GetLocalNetworksAndRoutersFromMetadata.
  split; [|split; [|split]].
  - intros networks err w1 ->. done.
  - intros networks w1 host err w2 -> ->. done.
  - intros networks w1 host w2 services err w3 -> -> ->. done.
  - intros networks w1 host w2 services w3 -> -> ->.
    by destruct (GetLocalNetworksAndRouters networks host services).
Qed.

End ClientFacts.

(** ** The theorems on the concrete configurations *)

Import Examples.

Local Abbreviation Update_ascii := (UpdateCNIConfigByKeywords TrimSpace_ascii).

Example TrimSpace_ascii_runs :
  TrimSpace_ascii "  rack one	 " = "rack one" ∧ TrimSpace_ascii "   " = "".
Proof. by vm_compute. Qed.

Example SplitN_2_runs :
  SplitN_2 "__host_label__: a:b" ":" = ["__host_label__"; " a:b"]
  ∧ SplitN_2 "__host_label__" ":" = ["__host_label__"].
Proof. by vm_compute. Qed.

Example UpdateCNIConfigByKeywords_runs :
  subtree (Update_ascii config_labels host1) [Key "rack"] = Some (NString "r7")
  ∧ subtree (Update_ascii config_labels host1) [Key "zone"] = Some (NString "")
  ∧ subtree (Update_ascii config_labels host1) [Key "none"] = Some (NString "")
  ∧ subtree (Update_ascii config_labels host1) [Key "bare"] = Some (NString "")
  ∧ subtree (Update_ascii config_labels host1) [Key "mtu"] = Some (NNumber 1500)
  ∧ subtree (Update_ascii config_labels host1) [Key "ipam"; Key "subnet"]
    = Some (NString "r7")
  ∧ subtree (Update_ascii config_labels host1) [Key "args"; Index 0]
    = Some (NString "__host_label__:rack").
Proof. by vm_compute. Qed.

Example GetLocalNetworksAndRouters_runs :
  (GetLocalNetworksAndRouters [network_foreign; network_bridge; network_plain]
     host1 [driver; sidekick; primary]).1 = [network_bridge]
  ∧ map_to_list
      (GetLocalNetworksAndRouters [network_foreign; network_bridge; network_plain]
         host1 [driver; sidekick; primary]).2
    = [("n1", router "c3" "h1" "n1")].
Proof. by vm_compute. Qed.

Example GetLocalNetworksAndRouters_no_driver :
  GetLocalNetworksAndRouters [network_bridge] host1 [sidekick; primary] = ([], ∅)
  ∧ GetLocalNetworksAndRouters [network_bridge] host1
      [driver_other; sidekick; primary] = ([], ∅).
Proof. by vm_compute. Qed.

Lemma GetLocalNetworksAndRouters_network_service_witness :
  filter (λ s, Kind s = "networkDriverService") [driver; sidekick; primary; primary_late]
  = [driver]
  ∧ otherPrimaryService driver primary
  ∧ Forall (λ s, ¬ otherPrimaryService driver s) [driver; sidekick]
  ∧ networkService [driver; sidekick; primary; primary_late] = primary
  ∧ (GetLocalNetworksAndRouters [network_bridge] host1
       [driver; sidekick; primary; primary_late]).2 !! "n1"
    = Some (router "c3" "h1" "n1").
Proof.
  assert (otherPrimaryService driver primary) as Hprimary
    by (unfold otherPrimaryService; simpl; done).
  assert (Forall (λ s, ¬ otherPrimaryService driver s) [driver; sidekick])
    as Hskipped
    by (repeat constructor; intros (_ & Huuid & Hname);
        [by apply Huuid|discriminate Hname]).
  split; [reflexivity|]. split; [done|]. split; [done|].
  destruct (GetLocalNetworksAndRouters_network_service
              [network_bridge] host1 [driver; sidekick; primary; primary_late]
              driver [driver; sidekick] primary [primary_late]
              eq_refl eq_refl Hprimary Hskipped) as [Hns Hrouters].
  split; [done|]. by rewrite Hrouters.
Defined.

(** Two services of the driver's stack are their own primary: the later one
    is not taken, and its containers are not the routers returned. *)
Lemma GetLocalNetworksAndRouters_later_primary_not_selected :
  filter (λ s, Kind s = "networkDriverService") [driver; primary; primary_late]
  = [driver]
  ∧ primary_late ∈ [driver; primary; primary_late]
  ∧ StackUUID primary_late = StackUUID driver
  ∧ Service_UUID primary_late ≠ Service_UUID driver
  ∧ Name primary_late = PrimaryServiceName primary_late
  ∧ networkService [driver; primary; primary_late] ≠ primary_late
  ∧ (GetLocalNetworksAndRouters [network_bridge] host1
       [driver; primary; primary_late]).2 !! "n2"
    ≠ last (filter (isRouterOf host1 "n2") (Containers primary_late)).
Proof.
  split; [reflexivity|]. split; [set_solver|]. split; [reflexivity|].
  split; [done|]. split; [reflexivity|]. split.
  - vm_compute. discriminate.
  - vm_compute. discriminate.
Qed.

Lemma GetLocalNetworksAndRoutersFromMetadata_results_witness :
  GetNetworks (client ([network_bridge], None) (host1, Some "no host") ([], None)) []
  = (([network_bridge], None), [FetchNetworks])
  ∧ GetSelfHost (client ([network_bridge], None) (host1, Some "no host") ([], None))
      [FetchNetworks]
    = ((host1, Some "no host"), [FetchNetworks; FetchSelfHost])
  ∧ GetLocalNetworksAndRoutersFromMetadata
      (client ([network_bridge], None) (host1, Some "no host") ([], None)) []
    = ((None, None, Some "no host"), [FetchNetworks; FetchSelfHost]).
Proof.
  split; [reflexivity|]. split; [reflexivity|].
  apply (proj1 (proj2 (GetLocalNetworksAndRoutersFromMetadata_results
                         (client ([network_bridge], None)
                                 (host1, Some "no host") ([], None)) []))
           [network_bridge] [FetchNetworks] host1 "no host"
           [FetchNetworks; FetchSelfHost] eq_refl eq_refl).
Defined.

Lemma UpdateCNIConfigByKeywords_host_label_witness :
  subtree config_labels [Key "rack"] = Some (NString "__host_label__: rack ")
  ∧ HasPrefix "__host_label__: rack " hostLabelKeyword = true
  ∧ Labels host1 !! TrimSpace_ascii " rack " = Some "r7"
  ∧ subtree (Update_ascii config_labels host1) [Key "rack"] = Some (NString "r7").
Proof.
  split; [by vm_compute|]. split; [reflexivity|]. split; [by vm_compute|].
  destruct config_labels as [props| | | | |] eqn:Hconfig; try discriminate.
  assert (props !! "rack" = Some (NString "__host_label__: rack ")) as Hrack
    by (injection Hconfig as <-; by vm_compute).
  destruct (UpdateCNIConfigByKeywords_host_label TrimSpace_ascii props host1
              "rack" "__host_label__: rack " Hrack eq_refl)
    as (props' & -> & _ & Hcolon & _).
  destruct (Hcolon "__host_label__" " rack " eq_refl eq_refl) as [Hlabel _].
  simpl. rewrite (Hlabel "r7"); [done|by vm_compute|done].
Defined.

(** A label whose value is a keyword reference: the second substitution
    resolves what the first one wrote. *)
Lemma UpdateCNIConfigByKeywords_twice_differs :
  Update_ascii (Update_ascii config_chained host_chained) host_chained
  ≠ Update_ascii config_chained host_chained.
Proof.
  intros Heq. apply (f_equal (λ config, subtree config [Key "k"])) in Heq.
  vm_compute in Heq. discriminate.
Qed.

Lemma UpdateCNIConfigByKeywords_idempotent_witness :
  (∀ label labelValue,
     Labels host1 !! label = Some labelValue →
     HasPrefix labelValue hostLabelKeyword = false)
  ∧ Update_ascii (Update_ascii config_labels host1) host1
    = Update_ascii config_labels host1.
Proof.
  assert (∀ label labelValue,
            Labels host1 !! label = Some labelValue →
            HasPrefix labelValue hostLabelKeyword = false) as Hlabels.
  { intros label labelValue. unfold host1. simpl.
    intros [[_ <-]|[_ [_ <-]%lookup_singleton_Some]]%lookup_insert_Some;
      reflexivity. }
  split; [done|].
  apply (UpdateCNIConfigByKeywords_idempotent TrimSpace_ascii config_labels host1 Hlabels).
Defined.

Lemma UpdateCNIConfigByKeywords_plain_unchanged_witness :
  subtree config_labels [Key "name"] = Some (NString "rancher-cni")
  ∧ HasPrefix "rancher-cni" hostLabelKeyword = false
  ∧ subtree (Update_ascii config_labels host1) [Key "name"]
    = Some (NString "rancher-cni")
  ∧ Update_ascii (NNumber 1500) host1 = NNumber 1500.
Proof.
  assert (subtree config_labels [Key "name"] = Some (NString "rancher-cni"))
    as Hname by (by vm_compute).
  split; [done|]. split; [reflexivity|]. split.
  - apply (proj1 (UpdateCNIConfigByKeywords_plain_unchanged TrimSpace_ascii
                    config_labels host1) [Key "name"] "rancher-cni" Hname eq_refl).
  - apply (proj2 (UpdateCNIConfigByKeywords_plain_unchanged TrimSpace_ascii
                    (NNumber 1500) host1)). done.
Defined.

Lemma GetLocalNetworksAndRouters_cni_driver_witness :
  filter (λ s, Kind s = "networkDriverService")
    [driver_other; primary; driver; sidekick] = [driver_other; driver]
  ∧ Name driver = "cni-driver"
  ∧ Name driver_other ≠ "cni-driver"
  ∧ cniDriverServices [driver_other; primary; driver; sidekick] = [driver]
  ∧ isNetworkServiceFor driver [driver_other; primary; driver; sidekick]
      (networkService [driver_other; primary; driver; sidekick])
  ∧ resolvesFrom driver [network_foreign; network_bridge] host1
      [driver_other; primary; driver; sidekick]
      (GetLocalNetworksAndRouters [network_foreign; network_bridge] host1
         [driver_other; primary; driver; sidekick])
  ∧ networkService [driver_other; primary; driver; sidekick] = primary
  ∧ (GetLocalNetworksAndRouters [network_foreign; network_bridge] host1
       [driver_other; primary; driver; sidekick]).1 = [network_bridge]
  ∧ map_to_list
      (GetLocalNetworksAndRouters [network_foreign; network_bridge] host1
         [driver_other; primary; driver; sidekick]).2
    = [("n1", router "c3" "h1" "n1")].
Proof.
  assert (Name driver_other ≠ "cni-driver") as Hother by done.
  split; [reflexivity|]. split; [reflexivity|]. split; [done|].
  destruct (proj1 (proj2 (GetLocalNetworksAndRouters_cni_driver
                            [network_foreign; network_bridge] host1
                            [driver_other; primary; driver; sidekick]))
              driver driver_other (or_intror eq_refl) eq_refl Hother)
    as (Hkept & Hservice & Hresult).
  split; [done|]. split; [done|]. split; [done|].
  split; [by vm_compute|]. split; by vm_compute.
Defined.

Lemma GetBridgeInfo_bridge_file_witness :
  Metadata network_bridge !! "cniConfig"
  = Some (NMap {[ "10-rancher.conf" := bridge_file ]})
  ∧ GetBridgeInfo TrimSpace_ascii network_bridge host1
    = ("docker0", "10.42.0.0/16")
  ∧ (∀ result,
       GetBridgeInfo_returns TrimSpace_ascii network_bridge host1 result
       ↔ result = ("docker0", "10.42.0.0/16")).
Proof.
  assert (Metadata network_bridge !! "cniConfig"
          = Some (NMap {[ "10-rancher.conf" := bridge_file ]})) as Hconf
    by (by vm_compute).
  split; [done|].
  apply (proj1 (GetBridgeInfo_bridge_file TrimSpace_ascii host1)
           network_bridge "10-rancher.conf" _ Hconf);
    by vm_compute.
Defined.

Lemma GetBridgeInfo_no_cniConfig_witness :
  (∃ v, Metadata network_plain !! "cniConfig" = Some v ∧ ∀ props, v ≠ NMap props)
  ∧ GetBridgeInfo TrimSpace_ascii network_plain host1 = ("", "").
Proof.
  assert (∃ v, Metadata network_plain !! "cniConfig" = Some v
               ∧ ∀ props, v ≠ NMap props) as Hconf
    by (exists (NString "none"); split; [by vm_compute|done]).
  split; [done|].
  apply (GetBridgeInfo_no_cniConfig TrimSpace_ascii network_plain host1
           (or_intror Hconf)).
Defined.

Lemma UpdateCNIConfigByKeywords_list_untouched_witness :
  HasPrefix "__host_label__:rack" hostLabelKeyword = true
  ∧ subtree config_labels [Key "args"]
    = Some (NList [NString "__host_label__:rack";
                   NMap {[ "in" := NString "__host_label__:rack" ]}])
  ∧ subtree (Update_ascii config_labels host1) ([Key "args"] ++ [Index 1; Key "in"])
    = Some (NString "__host_label__:rack")
  ∧ subtree (Update_ascii config_labels host1) [Key "ipam"; Key "subnet"]
    = Some (NString "r7").
Proof.
  assert (subtree config_labels [Key "args"]
          = Some (NList [NString "__host_label__:rack";
                         NMap {[ "in" := NString "__host_label__:rack" ]}]))
    as Hargs by (by vm_compute).
  split; [reflexivity|]. split; [done|]. split.
  - apply (proj2 (proj2 (UpdateCNIConfigByKeywords_list_untouched
                           TrimSpace_ascii host1))
             config_labels [Key "args"] _ [Index 1; Key "in"] _ Hargs).
    by vm_compute.
  - by vm_compute.
Defined.

(** * Further properties *)

(** ** Keyword substitution *)

Section MoreUtilsFacts.

Variable TrimSpace : string → string.

Local Abbreviation Update := (UpdateCNIConfigByKeywords TrimSpace).
Local Abbreviation update1 := (updateValue TrimSpace).
Local Abbreviation labelValueOf := (hostLabelValue TrimSpace).

(** X1: the loop over a mapping gives the same mapping in whatever order the
    runtime ranges over the keys, and that mapping is the one returned. *)
Theorem UpdateCNIConfigByKeywords_order_irrelevant host props order1 order2 :
  range_order props order1 →
  range_order props order2 →
  UpdateCNIConfigByKeywords_range TrimSpace order1 host props
  = UpdateCNIConfigByKeywords_range TrimSpace order2 host props
  ∧ Update (NMap props) host
    = NMap (UpdateCNIConfigByKeywords_range TrimSpace order1 host props).
Proof.
  intros Horder1 Horder2.
  rewrite !UpdateCNIConfigByKeywords_range_fmap by done. done.
Qed.

Lemma updateValue_kind host aValue :
  kind_of (update1 host aValue) = kind_of aValue.
Proof.
  destruct aValue as [props|v|elems|bits|b|]; try done.
  unfold updateValue. by destruct (HasPrefix v hostLabelKeyword).
Qed.

Lemma Update_kind host config : kind_of (Update config host) = kind_of config.
Proof. by destruct config. Qed.

Lemma subtree_string_below v path t :
  subtree (NString v) path = Some t → path = [] ∧ t = NString v.
Proof. destruct path as [|[?|?] ?]; [|done..]. by intros [= <-]. Qed.

(** Before and after the substitution the same paths exist, with values of
    the same dynamic type. *)
Lemma subtree_Update_kind host path : ∀ config,
  match subtree config path, subtree (Update config host) path with
  | Some t, Some t' => kind_of t = kind_of t'
  | None, None => True
  | _, _ => False
  end.
Proof.
  induction path as [|[k|i] path IH]; intros config.
  - simpl. by rewrite Update_kind.
  - destruct config as [props|v|elems|bits|b|]; try done.
    rewrite Update_NMap. cbn [subtree]. rewrite lookup_fmap.
    destruct (props !! k) as [child|]; [|done].
    cbn [mbind option_bind fmap option_fmap option_map].
    destruct child as [props'|v|elems|bits|b|];
      try (rewrite updateValue_not_string by done; apply IH).
    unfold updateValue. destruct (HasPrefix v hostLabelKeyword);
      by destruct path as [|[?|?] ?].
  - destruct config as [props|v|elems|bits|b|]; try done.
    cbn [UpdateCNIConfigByKeywords].
    by destruct (subtree (NList elems) (Index i :: path)).
Qed.

(** X2: the substitution keeps the shape of a configuration: a mapping keeps
    its keys, and every path of the tree leads, before and after, to a value
    of the same dynamic type; no path is added or lost. *)
Theorem UpdateCNIConfigByKeywords_shape host :
  (∀ props, ∃ props',
     Update (NMap props) host = NMap props' ∧ dom props' = dom props)
  ∧ (∀ config path,
       is_Some (subtree config path)
       ↔ is_Some (subtree (Update config host) path))
  ∧ (∀ config path t t',
       subtree config path = Some t →
       subtree (Update config host) path = Some t' →
       kind_of t = kind_of t').
Proof.
  split; [|split].
  - intros props. exists (update1 host <$> props).
    split; [apply Update_NMap|apply dom_fmap_L].
  - intros config path. pose proof (subtree_Update_kind host path config) as H.
    destruct (subtree config path), (subtree (Update config host) path);
      try done; split; intros [? ?]; done.
  - intros config path t t' Ht Ht'.
    pose proof (subtree_Update_kind host path config) as H.
    by rewrite Ht, Ht' in H.
Qed.

(** A keyword string under a key, through any number of nested mappings, is
    replaced by the value of lines 28-36. *)
Lemma subtree_keyword host keys : ∀ config v,
  keys ≠ [] →
  subtree config (key_path keys) = Some (NString v) →
  HasPrefix v hostLabelKeyword = true →
  subtree (Update config host) (key_path keys)
  = Some (NString (labelValueOf host v)).
Proof.
  induction keys as [|k keys IH]; intros config v Hne Hsub Hv; [done|].
  unfold key_path in *. rewrite fmap_cons in *.
  destruct config as [props| | | | |]; try done.
  rewrite Update_NMap. cbn [subtree] in *. rewrite lookup_fmap.
  destruct (props !! k) as [child|]; [|done].
  cbn [mbind option_bind fmap option_fmap option_map] in *.
  destruct keys as [|k' keys].
  - injection Hsub as ->. by rewrite updateValue_keyword.
  - destruct child as [props'| | | | |]; try done.
    rewrite updateValue_not_string by done. by apply IH.
Qed.

(** X3: the substitution goes down through mappings nested in mappings: a
    string that opens with ["__host_label__"], under a key at any depth, is
    replaced by the value computed from the host's labels. *)
Theorem UpdateCNIConfigByKeywords_nested host config keys v :
  keys ≠ [] →
  subtree config (key_path keys) = Some (NString v) →
  HasPrefix v hostLabelKeyword = true →
  subtree (Update config host) (key_path keys)
  = Some (NString (labelValueOf host v)).
Proof. apply subtree_keyword. Qed.

(** X4: what is written in place of a keyword string is the empty string or
    a non-empty value of one of the host's labels, nothing else; for a host
    without labels it is the empty string. *)
Theorem UpdateCNIConfigByKeywords_written_value host config keys v :
  keys ≠ [] →
  subtree config (key_path keys) = Some (NString v) →
  HasPrefix v hostLabelKeyword = true →
  ∃ written,
    subtree (Update config host) (key_path keys) = Some (NString written)
    ∧ (written = ""
       ∨ written ≠ "" ∧ ∃ label, Labels host !! label = Some written)
    ∧ (Labels host = ∅ → written = "").
Proof.
  intros Hne Hsub Hv. exists (labelValueOf host v).
  split; [by apply subtree_keyword|].
  destruct (hostLabelValue_cases TrimSpace host v) as [Hempty|[label Hlabel]].
  - split; [by left|done].
  - split.
    + destruct (decide (labelValueOf host v = "")); [by left|].
      right. split; [done|]. by exists label.
    + intros Hnone. rewrite Hnone in Hlabel. by apply lookup_empty_Some in Hlabel.
Qed.

(** X5: a configuration with no keyword string under a key of a mapping
    nested in mappings is returned as it is. *)
Theorem UpdateCNIConfigByKeywords_no_keyword host config :
  (∀ keys v,
     keys ≠ [] →
     subtree config (key_path keys) = Some (NString v) →
     HasPrefix v hostLabelKeyword = false) →
  Update config host = config.
Proof.
  induction config as [props IH|v|elems _|bits|b|] using node_tree_ind;
    intros Hplain; try done.
  rewrite Update_NMap. f_equal.
  rewrite <-(map_fmap_id props) at 2. apply map_fmap_ext.
  intros k child Hk. simpl.
  destruct child as [props'|v|elems|bits|b|]; try done.
  - rewrite updateValue_not_string by done.
    apply (IH k _ Hk). intros keys v Hne Hsub.
    apply (Hplain (k :: keys) v); [done|].
    unfold key_path. rewrite fmap_cons. cbn [subtree]. by rewrite Hk.
  - apply updateValue_plain. apply (Hplain [k] v); [done|].
    unfold key_path. simpl. by rewrite Hk.
Qed.

End MoreUtilsFacts.

(** ** Bridge information *)

Section MoreBridgeFacts.

Variable TrimSpace : string → string.

Local Abbreviation range := (GetBridgeInfo_range TrimSpace).
Local Abbreviation read := (readFile TrimSpace).
Local Abbreviation bridgeFile := (isBridgeFile TrimSpace).
Local Abbreviation lastSubnet := (last_subnet TrimSpace).

Lemma last_subnet_cons host file files start :
  lastSubnet host (file :: files) start
  = lastSubnet host files (read file host).2.
Proof.
  unfold last_subnet. rewrite fmap_cons, last_cons.
  by destruct (last _).
Qed.

Lemma GetBridgeInfo_range_none files host : ∀ bridge bridgeSubnet,
  Forall (λ file, ¬ bridgeFile host file) files →
  range files host bridge bridgeSubnet
  = (bridge, lastSubnet host files bridgeSubnet).
Proof.
  induction files as [|file files IH]; intros bridge bridgeSubnet Hnone; [done|].
  apply Forall_cons in Hnone as [Hfile Hnone].
  rewrite last_subnet_cons.
  destruct (read file host) as [[cniType b] s] eqn:Hread.
  erewrite GetBridgeInfo_range_next; [|done|].
  - by apply IH.
  - unfold isBridgeFile in Hfile. by rewrite Hread in Hfile.
Qed.

Lemma first_bridge_file host (files : list node) :
  Forall (λ file, ¬ bridgeFile host file) files
  ∨ ∃ skipped file rest,
      files = skipped ++ file :: rest
      ∧ Forall (λ file, ¬ bridgeFile host file) skipped
      ∧ bridgeFile host file.
Proof.
  induction files as [|file files IH]; [by left|].
  destruct (decide (bridgeFile host file)) as [Hfile|Hfile].
  - right. by exists [], file, files.
  - destruct IH as [Hnone|(skipped & file' & rest & -> & Hskipped & Hfile')].
    + left. by constructor.
    + right. exists (file :: skipped), file', rest.
      split; [done|]. split; [by constructor|done].
Qed.

(** The two ways the loop ends: past the last file, or at the first bridge
    file. *)
Lemma GetBridgeInfo_range_cases files host bridge bridgeSubnet :
  (Forall (λ file, ¬ bridgeFile host file) files
   ∧ range files host bridge bridgeSubnet
     = (bridge, lastSubnet host files bridgeSubnet))
  ∨ ∃ file checkBridge s,
      file ∈ files
      ∧ read file host = ("rancher-bridge", checkBridge, s)
      ∧ checkBridge ≠ ""
      ∧ range files host bridge bridgeSubnet = (checkBridge, s).
Proof.
  destruct (first_bridge_file host files)
    as [Hnone|(skipped & file & rest & -> & Hskipped & Hfile)].
  - left. split; [done|]. by apply GetBridgeInfo_range_none.
  - right. destruct (read file host) as [[cniType b] s] eqn:Hread.
    unfold isBridgeFile in Hfile. rewrite Hread in Hfile.
    destruct Hfile as [Htype Hb]. simpl in Htype, Hb. subst cniType.
    exists file, b, s. split; [set_solver|]. split; [done|]. split; [done|].
    by eapply GetBridgeInfo_range_first.
Qed.

Lemma range_order_elem_of {A} (m : gmap string A) order name x :
  range_order m order → (name, x) ∈ order ↔ m !! name = Some x.
Proof. unfold range_order. intros ->. apply elem_of_map_to_list. Qed.

Lemma range_order_file (conf : gmap string node) order file :
  range_order conf order →
  file ∈ order.*2 ↔ ∃ name, conf !! name = Some file.
Proof.
  intros Horder. rewrite list_elem_of_fmap. split.
  - intros ([name file'] & -> & Hin). exists name.
    by apply (range_order_elem_of conf order).
  - intros [name Hname]. exists (name, file). split; [done|].
    by apply (range_order_elem_of conf order).
Qed.

Lemma range_order_map_to_list {A} (m : gmap string A) :
  range_order m (map_to_list m).
Proof. unfold range_order. reflexivity. Qed.

(** X6: when no file of the configuration reads as a bridge file, the bridge
    returned is empty and the subnet is the one read from the last file of the
    iteration, empty if that file has none or there is no file. *)
Theorem GetBridgeInfo_no_bridge_file network host order :
  range_order (cniConfig network) order →
  (∀ name file,
     cniConfig network !! name = Some file → ¬ bridgeFile host file) →
  GetBridgeInfo_in TrimSpace order host
  = ("", lastSubnet host (order.*2) "").
Proof.
  intros Horder Hnone. unfold GetBridgeInfo_in.
  apply GetBridgeInfo_range_none. apply Forall_forall.
  intros file [name Hname]%(range_order_file _ _ _ Horder). by eapply Hnone.
Qed.

(** X7: in any order of iteration, the bridge returned is non-empty exactly
    when some file of the configuration reads as a bridge file, and then the
    bridge and the subnet returned are those read from one and the same
    file. *)
Theorem GetBridgeInfo_bridge_from_file network host order :
  range_order (cniConfig network) order →
  ((GetBridgeInfo_in TrimSpace order host).1 ≠ ""
   ↔ ∃ name file,
       cniConfig network !! name = Some file ∧ bridgeFile host file)
  ∧ ((GetBridgeInfo_in TrimSpace order host).1 ≠ "" →
     ∃ name file,
       cniConfig network !! name = Some file
       ∧ read file host
         = ("rancher-bridge",
            (GetBridgeInfo_in TrimSpace order host).1,
            (GetBridgeInfo_in TrimSpace order host).2)).
Proof.
  intros Horder. unfold GetBridgeInfo_in.
  destruct (GetBridgeInfo_range_cases (order.*2) host "" "")
    as [[Hnone ->]|(file & b & s & Hin & Hread & Hb & ->)]; simpl.
  - split; [|done]. split; [done|].
    intros (name & file & Hname & Hfile).
    rewrite Forall_forall in Hnone. destruct (Hnone file); [|done].
    apply (range_order_file _ _ _ Horder). by exists name.
  - apply (range_order_file _ _ _ Horder) in Hin as [name Hname].
    split; [split; [|done]|].
    + intros _. exists name, file. split; [done|].
      unfold isBridgeFile. by rewrite Hread.
    + intros _. by exists name, file.
Qed.

(** X8: when exactly one file of the configuration reads as a bridge file,
    the result is the bridge and the subnet of that file in every order of
    iteration. *)
Theorem GetBridgeInfo_unique_bridge_file network host name file checkBridge s :
  cniConfig network !! name = Some file →
  read file host = ("rancher-bridge", checkBridge, s) →
  checkBridge ≠ "" →
  (∀ name' file',
     cniConfig network !! name' = Some file' →
     bridgeFile host file' → name' = name) →
  GetBridgeInfo TrimSpace network host = (checkBridge, s)
  ∧ ∀ result,
      GetBridgeInfo_returns TrimSpace network host result
      ↔ result = (checkBridge, s).
Proof.
  intros Hname Hread Hb Hunique.
  assert (∀ order, range_order (cniConfig network) order →
                   GetBridgeInfo_in TrimSpace order host = (checkBridge, s))
    as Hall.
  { intros order Horder. unfold GetBridgeInfo_in.
    destruct (GetBridgeInfo_range_cases (order.*2) host "" "")
      as [[Hnone _]|(file' & b' & s' & Hin & Hread' & Hb' & ->)].
    - rewrite Forall_forall in Hnone. destruct (Hnone file).
      + apply (range_order_file _ _ _ Horder). by exists name.
      + unfold isBridgeFile. by rewrite Hread.
    - apply (range_order_file _ _ _ Horder) in Hin as [name' Hname'].
      assert (name' = name) as ->.
      { apply (Hunique _ file'); [done|]. unfold isBridgeFile. by rewrite Hread'. }
      assert (file' = file) as -> by congruence. congruence. }
  split; [apply Hall, range_order_map_to_list|].
  intros result. split.
  - intros (order & Horder & <-). by apply Hall.
  - intros ->. exists (map_to_list (cniConfig network)).
    split; [apply range_order_map_to_list|].
    apply Hall, range_order_map_to_list.
Qed.

Lemma readFile_keyword props host k v :
  props !! k = Some (NString v) →
  HasPrefix v hostLabelKeyword = true →
  string_field (updateValue TrimSpace host <$> props) k
  = hostLabelValue TrimSpace host v.
Proof.
  intros Hk Hv. unfold string_field.
  rewrite lookup_fmap, Hk. cbn [fmap option_fmap option_map].
  by rewrite updateValue_keyword.
Qed.

(** X9: the bridge is read after the substitution: in a configuration of one
    file of type ["rancher-bridge"] whose bridge is a keyword string, the bridge
    returned is the value the host's labels give it, empty when they give
    none, with the subnet of that file. *)
Theorem GetBridgeInfo_bridge_from_label network host name props v s :
  Metadata network !! "cniConfig" = Some (NMap {[ name := NMap props ]}) →
  props !! "type" = Some (NString "rancher-bridge") →
  props !! "bridge" = Some (NString v) →
  HasPrefix v hostLabelKeyword = true →
  props !! "bridgeSubnet" = Some (NString s) →
  HasPrefix s hostLabelKeyword = false →
  GetBridgeInfo TrimSpace network host = (hostLabelValue TrimSpace host v, s)
  ∧ ∀ result,
      GetBridgeInfo_returns TrimSpace network host result
      ↔ result = (hostLabelValue TrimSpace host v, s).
Proof.
  intros Hconf Htype Hbridge Hv Hsubnet Hs.
  assert (read (NMap props) host
          = ("rancher-bridge", hostLabelValue TrimSpace host v, s)) as Hread.
  { unfold readFile. rewrite Update_NMap. cbv zeta.
    rewrite (readFile_plain TrimSpace props host "type" _ Htype eq_refl).
    rewrite (readFile_keyword props host "bridge" _ Hbridge Hv).
    by rewrite (readFile_plain TrimSpace props host "bridgeSubnet" _ Hsubnet Hs). }
  assert (GetBridgeInfo_in TrimSpace [(name, NMap props)] host
          = (hostLabelValue TrimSpace host v, s)) as Hrun.
  { unfold GetBridgeInfo_in. cbn [fmap list_fmap snd].
    destruct (decide (hostLabelValue TrimSpace host v = "")) as [Hempty|Hvalue].
    - erewrite GetBridgeInfo_range_next; [|done|].
      + by rewrite Hempty.
      + rewrite Hempty. by intros [_ ?].
    - by eapply GetBridgeInfo_range_found. }
  unfold GetBridgeInfo, GetBridgeInfo_returns, range_order.
  rewrite (cniConfig_Some _ _ Hconf), map_to_list_singleton.
  split; [done|]. intros result. split.
  - intros (order & Horder%Permutation_singleton_r & <-). by subst order.
  - intros ->. by exists [(name, NMap props)].
Qed.

End MoreBridgeFacts.

(** ** The local networks and routers *)

Lemma cniDriverServices_filter services :
  cniDriverServices services
  = if decide (length (filter (λ s, Kind s = "networkDriverService") services) ≠ 1)
    then filter (λ s, Name s = "cni-driver")
           (filter (λ s, Kind s = "networkDriverService") services)
    else filter (λ s, Kind s = "networkDriverService") services.
Proof.
  unfold cniDriverServices. rewrite unfilteredCniDriverServices_filter.
  destruct (decide _); [|done]. by rewrite named_loop_filter.
Qed.

Lemma cniDriverServices_elem_of services driver :
  driver ∈ cniDriverServices services →
  driver ∈ services ∧ Kind driver = "networkDriverService".
Proof.
  rewrite cniDriverServices_filter. destruct (decide _).
  - intros [_ [? ?]%list_elem_of_filter]%list_elem_of_filter. done.
  - intros [? ?]%list_elem_of_filter. done.
Qed.

(** X10: without a usable driver service the results are empty, whatever the
    networks: when no service is of kind ["networkDriverService"], and when
    the services of that kind are not exactly one and none of them is named
    ["cni-driver"]. *)
Theorem GetLocalNetworksAndRouters_no_usable_driver networks host services :
  ((∀ s, s ∈ services → Kind s ≠ "networkDriverService") →
   GetLocalNetworksAndRouters networks host services = ([], ∅))
  ∧ (length (filter (λ s, Kind s = "networkDriverService") services) ≠ 1 →
     (∀ s, s ∈ services → Kind s = "networkDriverService" →
           Name s ≠ "cni-driver") →
     GetLocalNetworksAndRouters networks host services = ([], ∅)).
Proof.
  assert (cniDriverServices services = [] →
          GetLocalNetworksAndRouters networks host services = ([], ∅)) as Hnil.
  { intros Hnil. unfold GetLocalNetworksAndRouters. rewrite Hnil.
    apply resolveWithDrivers_nil. }
  split.
  - intros Hkind. apply Hnil. rewrite cniDriverServices_filter.
    rewrite (filter_none (λ s, Kind s = _) services) by done. done.
  - intros Hlen Hname. apply Hnil. rewrite cniDriverServices_filter.
    rewrite decide_True by done. apply filter_none.
    intros s [Hkind Hin]%list_elem_of_filter. by apply Hname.
Qed.

(** X11: every router returned is a container of the network service that
    runs on the host, stored under the UUID of its own network; and every
    network served on the host by a container of the network service has an
    entry. *)
Theorem GetLocalNetworksAndRouters_routers_invariant networks host services :
  (∀ networkUUID aContainer,
     (GetLocalNetworksAndRouters networks host services).2 !! networkUUID
     = Some aContainer →
     aContainer ∈ Containers (networkService services)
     ∧ HostUUID aContainer = Host_UUID host
     ∧ NetworkUUID aContainer = networkUUID)
  ∧ (∀ aContainer,
       aContainer ∈ Containers (networkService services) →
       HostUUID aContainer = Host_UUID host →
       is_Some ((GetLocalNetworksAndRouters networks host services).2
                !! NetworkUUID aContainer)).
Proof.
  unfold GetLocalNetworksAndRouters, resolveWithDrivers. simpl.
  fold (networkService services). split.
  - intros networkUUID aContainer. rewrite localRoutersOf_lookup.
    intros [[? ?] ?]%last_Some_elem_of%list_elem_of_filter. done.
  - intros aContainer Hin Hhost. rewrite localRoutersOf_lookup.
    apply last_is_Some. intros Hnil.
    apply (filter_nil_not_elem_of _ _ aContainer) in Hnil; done.
Qed.

(** X12: the networks returned are taken from the given ones, in their
    order, and each has among the routers returned a container that runs on
    the host and serves that network; without routers, no network is
    returned. *)
Theorem GetLocalNetworksAndRouters_networks_have_router networks host services :
  (GetLocalNetworksAndRouters networks host services).1 `sublist_of` networks
  ∧ (∀ aNetwork,
       aNetwork ∈ (GetLocalNetworksAndRouters networks host services).1 →
       ∃ aContainer,
         (GetLocalNetworksAndRouters networks host services).2
           !! Network_UUID aNetwork = Some aContainer
         ∧ HostUUID aContainer = Host_UUID host
         ∧ NetworkUUID aContainer = Network_UUID aNetwork)
  ∧ ((GetLocalNetworksAndRouters networks host services).2 = ∅ →
     (GetLocalNetworksAndRouters networks host services).1 = []).
Proof.
  unfold GetLocalNetworksAndRouters, resolveWithDrivers. simpl.
  rewrite localNetworksOf_filter. split; [apply sublist_filter|]. split.
  - intros aNetwork [(_ & _ & [aContainer Hrouter]%elem_of_dom) _]%list_elem_of_filter.
    exists aContainer. split; [done|].
    rewrite localRoutersOf_lookup in Hrouter.
    apply last_Some_elem_of, list_elem_of_filter in Hrouter as [[? ?] _]. done.
  - intros ->. apply filter_none.
    intros aNetwork _ (_ & _ & [aContainer Hrouter]%elem_of_dom).
    by apply lookup_empty_Some in Hrouter.
Qed.

Lemma findNetworkService_cases driver services start :
  findNetworkService driver services start = start
  ∨ findNetworkService driver services start ∈ services
    ∧ otherPrimaryService driver (findNetworkService driver services start).
Proof.
  induction services as [|service services IH]; simpl; [by left|].
  destruct (decide (otherPrimaryService driver service)).
  - right. split; [apply elem_of_cons; by left|done].
  - destruct IH as [?|[? ?]]; [by left|].
    right. split; [apply elem_of_cons; by right|done].
Qed.

(** X13: the service taken for the network service is the zero value, or a
    service of the list that is in the stack of the driver used, has another
    UUID than that driver and is named as its own primary service; the driver
    used is the first one kept, a service of the list of kind
    ["networkDriverService"]. *)
Theorem networkService_invariant services :
  networkService services = zero_Service
  ∨ ∃ driver,
      head (cniDriverServices services) = Some driver
      ∧ driver ∈ services
      ∧ Kind driver = "networkDriverService"
      ∧ networkService services ∈ services
      ∧ StackUUID (networkService services) = StackUUID driver
      ∧ Service_UUID (networkService services) ≠ Service_UUID driver
      ∧ Name (networkService services)
        = PrimaryServiceName (networkService services).
Proof.
  unfold networkService, networkServiceOf.
  destruct (cniDriverServices services) as [|driver drivers] eqn:Hdrivers;
    [by left|].
  destruct (findNetworkService_cases driver services zero_Service)
    as [?|[Hin (Hstack & Huuid & Hname)]]; [by left|].
  right. exists driver. split; [done|].
  destruct (cniDriverServices_elem_of services driver) as [? ?].
  { rewrite Hdrivers. set_solver. }
  done.
Qed.

Section States.

Variable state : Container → string.

Local Abbreviation withState := (Container_withState state).
Local Abbreviation withStates := (Service_withStates state).

Lemma filter_fmap_commute {A} (g : A → A) (P : A → Prop)
    `{!∀ x, Decision (P x)} (l : list A) :
  (∀ x, P (g x) ↔ P x) → filter P (g <$> l) = g <$> filter P l.
Proof.
  intros Hg. induction l as [|x l IH]; [done|].
  rewrite fmap_cons, !filter_cons, IH.
  destruct (decide (P x)) as [Hx|Hx].
  - rewrite decide_True by (by apply Hg). done.
  - rewrite decide_False by (by rewrite Hg). done.
Qed.

Lemma cniDriverServices_withStates services :
  cniDriverServices (withStates <$> services)
  = withStates <$> cniDriverServices services.
Proof.
  rewrite !cniDriverServices_filter.
  rewrite (filter_fmap_commute withStates (λ s, Kind s = _)) by done.
  rewrite length_fmap. destruct (decide _); [|done].
  by rewrite (filter_fmap_commute withStates (λ s, Name s = _)).
Qed.

Lemma findNetworkService_withStates driver services start :
  findNetworkService (withStates driver) (withStates <$> services)
    (withStates start)
  = withStates (findNetworkService driver services start).
Proof.
  induction services as [|service services IH]; [done|].
  rewrite fmap_cons. cbn [findNetworkService]. rewrite IH.
  destruct (decide (otherPrimaryService driver service)) as [Hs|Hs].
  - by rewrite decide_True.
  - by rewrite decide_False.
Qed.

Lemma networkServiceOf_withStates drivers services :
  networkServiceOf (withStates <$> drivers) (withStates <$> services)
  = withStates (networkServiceOf drivers services).
Proof.
  destruct drivers as [|driver drivers]; [done|].
  rewrite fmap_cons. cbn [networkServiceOf].
  by rewrite <-findNetworkService_withStates.
Qed.

Lemma localRouters_range_withState containers host
    (start : gmap string Container) :
  foldl (λ localRouters aContainer,
           if decide (HostUUID aContainer = Host_UUID host)
           then <[NetworkUUID aContainer := aContainer]> localRouters
           else localRouters)
        (withState <$> start) (withState <$> containers)
  = withState <$>
      foldl (λ localRouters aContainer,
               if decide (HostUUID aContainer = Host_UUID host)
               then <[NetworkUUID aContainer := aContainer]> localRouters
               else localRouters)
            start containers.
Proof.
  revert start. induction containers as [|c cs IH]; intros start; [done|].
  rewrite fmap_cons. cbn [foldl]. rewrite <-IH. f_equal.
  cbn [Container_withState HostUUID NetworkUUID].
  destruct (decide (HostUUID c = Host_UUID host)); [|done].
  by rewrite fmap_insert.
Qed.

Lemma localRoutersOf_withState containers host :
  localRoutersOf (withState <$> containers) host
  = withState <$> localRoutersOf containers host.
Proof.
  unfold localRoutersOf. rewrite <-localRouters_range_withState.
  by rewrite fmap_empty.
Qed.

Lemma localNetworksOf_fmap (g : Container → Container) networks host localRouters :
  localNetworksOf networks host (g <$> localRouters)
  = localNetworksOf networks host localRouters.
Proof.
  rewrite !localNetworksOf_filter. apply list_filter_iff.
  intros aNetwork. unfold isLocalNetwork. by rewrite dom_fmap_L.
Qed.

(** X14: the states of the containers play no part: with other states, the
    same networks are returned and the same containers are the routers, under
    the same keys, each with its other state.  So the networks are returned
    as well when no container is in a state considered running. *)
Theorem GetLocalNetworksAndRouters_ignores_states networks host services :
  GetLocalNetworksAndRouters networks host (withStates <$> services)
  = ((GetLocalNetworksAndRouters networks host services).1,
     withState <$> (GetLocalNetworksAndRouters networks host services).2)
  ∧ ((∀ aContainer,
        IsContainerConsideredRunning (withState aContainer) = false) →
     (GetLocalNetworksAndRouters networks host (withStates <$> services)).1
     = (GetLocalNetworksAndRouters networks host services).1
     ∧ ∀ networkUUID aContainer,
         (GetLocalNetworksAndRouters networks host (withStates <$> services)).2
           !! networkUUID = Some aContainer →
         IsContainerConsideredRunning aContainer = false).
Proof.
  assert (GetLocalNetworksAndRouters networks host (withStates <$> services)
          = ((GetLocalNetworksAndRouters networks host services).1,
             withState <$> (GetLocalNetworksAndRouters networks host services).2))
    as Heq.
  { unfold GetLocalNetworksAndRouters, resolveWithDrivers. cbn [fst snd].
    rewrite cniDriverServices_withStates, networkServiceOf_withStates.
    cbn [Service_withStates Containers].
    rewrite localRoutersOf_withState, localNetworksOf_fmap. done. }
  split; [done|]. intros Hstopped. rewrite Heq. cbn [fst snd]. split; [done|].
  intros networkUUID aContainer. rewrite lookup_fmap.
  destruct (_ !! networkUUID) as [c|]; [|done]. by intros [= <-].
Qed.

End States.

(** ** The metadata front end *)

Section MoreClientFacts.

Context {error world : Type}.

(** X16: the call returns either both results with a nil error, or an error
    with both results nil, never a part of each. *)
Theorem GetLocalNetworksAndRoutersFromMetadata_all_or_nothing
    (mc : Client error world) (w : world) :
  (∃ networks routers,
     (GetLocalNetworksAndRoutersFromMetadata mc w).1
     = (Some networks, Some routers, None))
  ∨ (∃ err,
       (GetLocalNetworksAndRoutersFromMetadata mc w).1
       = (None, None, Some err)).
Proof.
  unfold GetLocalNetworksAndRoutersFromMetadata.
  destruct (GetNetworks mc w) as [[networks [err|]] w1]; [right; by eexists|].
  destruct (GetSelfHost mc w1) as [[host [err|]] w2]; [right; by eexists|].
  destruct (GetServices mc w2) as [[services [err|]] w3]; [right; by eexists|].
  destruct (GetLocalNetworksAndRouters networks host services).
  left. by eexists _, _.
Qed.

End MoreClientFacts.

(** ** [HasIPAddrFromSubnet] *)

Section NetlinkFacts.

Context {Link Addr IP error world : Type}.

Lemma anyContains_true (net : Net Link Addr IP error world) ips expected :
  anyContains net ips expected = true
  ↔ ∃ ip, ip ∈ ips ∧ Contains net ip expected = true.
Proof.
  induction ips as [|ip ips IH]; simpl.
  - split; [done|]. intros (ip & Hin & _). by apply elem_of_nil in Hin.
  - destruct (Contains net ip expected) eqn:Hip.
    + split; [|done]. intros _. exists ip. split; [apply elem_of_cons; by left|done].
    + rewrite IH. split.
      * intros (ip' & Hin & Hip'). exists ip'.
        split; [apply elem_of_cons; by right|done].
      * intros (ip' & [->|Hin]%elem_of_cons & Hip'); [congruence|].
        by exists ip'.
Qed.

(** X17: a failure is returned with [false], and the first call to fail
    decides: an unknown interface is reported whatever the subnet, and a
    subnet that does not parse is reported only once the link and its
    addresses have been fetched; the kernel is left as the last netlink call
    made left it. *)
Theorem HasIPAddrFromSubnet_errors
    (net : Net Link Addr IP error world) interfaceName subnet (w : world) :
  (∀ l err w1,
     LinkByName net interfaceName w = ((l, Some err), w1) →
     HasIPAddrFromSubnet net interfaceName subnet w = ((false, Some err), w1))
  ∧ (∀ l w1 ips err w2,
       LinkByName net interfaceName w = ((l, None), w1) →
       AddrList net l AF_INET w1 = ((ips, Some err), w2) →
       HasIPAddrFromSubnet net interfaceName subnet w
       = ((false, Some err), w2))
  ∧ (∀ l w1 ips w2 expected err,
       LinkByName net interfaceName w = ((l, None), w1) →
       AddrList net l AF_INET w1 = ((ips, None), w2) →
       ParseCIDR net subnet = (expected, Some err) →
       HasIPAddrFromSubnet net interfaceName subnet w
       = ((false, Some err), w2)).
Proof.
  unfold HasIPAddrFromSubnet. split; [|split].
  - intros l err w1 ->. done.
  - intros l w1 ips err w2 -> ->. done.
  - intros l w1 ips w2 expected err -> -> ->. done.
Qed.

(** X18: when the link, its IPv4 addresses and the subnet are obtained, the
    answer comes without error and is [true] exactly when the network of one
    of the addresses contains the address parsed from the subnet; without
    addresses it is [false]. *)
Theorem HasIPAddrFromSubnet_found
    (net : Net Link Addr IP error world) interfaceName subnet (w : world)
    l w1 ips w2 expected :
  LinkByName net interfaceName w = ((l, None), w1) →
  AddrList net l AF_INET w1 = ((ips, None), w2) →
  ParseCIDR net subnet = (expected, None) →
  ∃ found,
    HasIPAddrFromSubnet net interfaceName subnet w = ((found, None), w2)
    ∧ (found = true ↔ ∃ ip, ip ∈ ips ∧ Contains net ip expected = true)
    ∧ (ips = [] → found = false).
Proof.
  intros Hlink Haddrs Hparse. exists (anyContains net ips expected).
  unfold HasIPAddrFromSubnet. rewrite Hlink, Haddrs, Hparse.
  split; [done|]. split; [apply anyContains_true|]. by intros ->.
Qed.

End NetlinkFacts.

(** ** The further properties on the concrete configurations *)

Import MoreExamples.

Lemma range_order_of_list {A} (order order' : list (string * A)) :
  NoDup (order.*1) →
  order' ≡ₚ order →
  range_order (list_to_map order) order'.
Proof.
  intros Hnodup Hperm. unfold range_order.
  by rewrite Hperm, map_to_list_to_map.
Qed.

Lemma UpdateCNIConfigByKeywords_order_irrelevant_witness :
  range_order (list_to_map order_ab) order_ab
  ∧ range_order (list_to_map order_ab) order_ba
  ∧ UpdateCNIConfigByKeywords_range TrimSpace_ascii order_ab host1
      (list_to_map order_ab)
    = UpdateCNIConfigByKeywords_range TrimSpace_ascii order_ba host1
        (list_to_map order_ab).
Proof.
  assert (NoDup (order_ab.*1)) as Hnodup by (by apply (bool_decide_unpack _)).
  assert (range_order (list_to_map order_ab) order_ab) as Hab
    by (by apply range_order_of_list).
  assert (range_order (list_to_map order_ab) order_ba) as Hba
    by (apply range_order_of_list; [done|apply perm_swap]).
  split; [done|]. split; [done|].
  apply (UpdateCNIConfigByKeywords_order_irrelevant TrimSpace_ascii host1
           (list_to_map order_ab) order_ab order_ba Hab Hba).
Defined.

Lemma UpdateCNIConfigByKeywords_shape_witness :
  is_Some (subtree config_labels [Key "args"; Index 1; Key "in"])
  ∧ is_Some (subtree (Update_ascii config_labels host1)
               [Key "args"; Index 1; Key "in"]).
Proof.
  assert (is_Some (subtree config_labels [Key "args"; Index 1; Key "in"]))
    as Hsome by (eexists; vm_compute; reflexivity).
  split; [done|].
  apply (proj1 (proj1 (proj2 (UpdateCNIConfigByKeywords_shape
                                TrimSpace_ascii host1))
                  config_labels [Key "args"; Index 1; Key "in"]) Hsome).
Defined.

Lemma UpdateCNIConfigByKeywords_nested_witness :
  ["ipam"; "subnet"] ≠ []
  ∧ subtree config_labels (key_path ["ipam"; "subnet"])
    = Some (NString "__host_label__:rack")
  ∧ HasPrefix "__host_label__:rack" hostLabelKeyword = true
  ∧ subtree (Update_ascii config_labels host1) (key_path ["ipam"; "subnet"])
    = Some (NString "r7").
Proof.
  assert (subtree config_labels (key_path ["ipam"; "subnet"])
          = Some (NString "__host_label__:rack")) as Hsub by (by vm_compute).
  split; [done|]. split; [done|]. split; [reflexivity|].
  rewrite (UpdateCNIConfigByKeywords_nested TrimSpace_ascii host1 config_labels
             ["ipam"; "subnet"] "__host_label__:rack"
             ltac:(discriminate) Hsub eq_refl).
  by vm_compute.
Defined.

Lemma UpdateCNIConfigByKeywords_written_value_witness :
  subtree config_labels (key_path ["none"])
  = Some (NString "__host_label__:missing")
  ∧ HasPrefix "__host_label__:missing" hostLabelKeyword = true
  ∧ ∃ written,
      subtree (Update_ascii config_labels host1) (key_path ["none"])
      = Some (NString written)
      ∧ (written = ""
         ∨ written ≠ "" ∧ ∃ label, Labels host1 !! label = Some written)
      ∧ (Labels host1 = ∅ → written = "").
Proof.
  assert (subtree config_labels (key_path ["none"])
          = Some (NString "__host_label__:missing")) as Hsub by (by vm_compute).
  split; [done|]. split; [reflexivity|].
  apply (UpdateCNIConfigByKeywords_written_value TrimSpace_ascii host1
           config_labels ["none"] "__host_label__:missing"
           ltac:(discriminate) Hsub eq_refl).
Defined.

Lemma UpdateCNIConfigByKeywords_no_keyword_witness :
  (∀ keys v,
     keys ≠ [] →
     subtree config_list_only (key_path keys) = Some (NString v) →
     HasPrefix v hostLabelKeyword = false)
  ∧ Update_ascii config_list_only host1 = config_list_only.
Proof.
  assert (∀ keys v,
            keys ≠ [] →
            subtree config_list_only (key_path keys) = Some (NString v) →
            HasPrefix v hostLabelKeyword = false) as Hplain.
  { intros [|k keys] v Hne; [done|].
    unfold config_list_only, key_path. rewrite fmap_cons. cbn [subtree].
    destruct (_ !! k) as [child|] eqn:Hk; [|done].
    apply lookup_singleton_Some in Hk as [_ <-].
    by destruct keys. }
  split; [done|].
  apply (UpdateCNIConfigByKeywords_no_keyword TrimSpace_ascii host1
           config_list_only Hplain).
Defined.

Lemma cniConfig_network_no_bridge :
  cniConfig network_no_bridge = {[ "99-loopback.conf" := loopback_file ]}.
Proof. apply cniConfig_Some. by vm_compute. Qed.

Lemma cniConfig_network_two_files :
  cniConfig network_two_files
  = {[ "10-rancher.conf" := bridge_file; "99-loopback.conf" := loopback_file ]}.
Proof. apply cniConfig_Some. by vm_compute. Qed.

Lemma loopback_file_no_bridge :
  ¬ isBridgeFile TrimSpace_ascii host1 loopback_file.
Proof. intros [Htype _]. vm_compute in Htype. discriminate. Qed.

Lemma GetBridgeInfo_no_bridge_file_witness :
  range_order (cniConfig network_no_bridge)
    (map_to_list (cniConfig network_no_bridge))
  ∧ (∀ name file,
       cniConfig network_no_bridge !! name = Some file →
       ¬ isBridgeFile TrimSpace_ascii host1 file)
  ∧ GetBridgeInfo_in TrimSpace_ascii
      (map_to_list (cniConfig network_no_bridge)) host1
    = ("", "127.0.0.0/8").
Proof.
  assert (∀ name file,
            cniConfig network_no_bridge !! name = Some file →
            ¬ isBridgeFile TrimSpace_ascii host1 file) as Hnone.
  { intros name file. rewrite cniConfig_network_no_bridge.
    intros [_ <-]%lookup_singleton_Some. apply loopback_file_no_bridge. }
  split; [apply range_order_map_to_list|]. split; [done|].
  rewrite (GetBridgeInfo_no_bridge_file TrimSpace_ascii network_no_bridge host1
             _ (range_order_map_to_list _) Hnone).
  by vm_compute.
Defined.

Lemma GetBridgeInfo_bridge_from_file_witness :
  range_order (cniConfig network_two_files)
    (map_to_list (cniConfig network_two_files))
  ∧ (GetBridgeInfo_in TrimSpace_ascii
       (map_to_list (cniConfig network_two_files)) host1).1 ≠ ""
  ∧ ∃ name file,
      cniConfig network_two_files !! name = Some file
      ∧ isBridgeFile TrimSpace_ascii host1 file.
Proof.
  assert ((GetBridgeInfo_in TrimSpace_ascii
             (map_to_list (cniConfig network_two_files)) host1).1 ≠ "")
    as Hbridge by (vm_compute; discriminate).
  split; [apply range_order_map_to_list|]. split; [done|].
  apply (proj1 (proj1 (GetBridgeInfo_bridge_from_file TrimSpace_ascii
                         network_two_files host1 _
                         (range_order_map_to_list _))) Hbridge).
Defined.

Lemma GetBridgeInfo_unique_bridge_file_witness :
  cniConfig network_two_files !! "10-rancher.conf" = Some bridge_file
  ∧ readFile TrimSpace_ascii bridge_file host1
    = ("rancher-bridge", "docker0", "10.42.0.0/16")
  ∧ (∀ name' file',
       cniConfig network_two_files !! name' = Some file' →
       isBridgeFile TrimSpace_ascii host1 file' → name' = "10-rancher.conf")
  ∧ ∀ result,
      GetBridgeInfo_returns TrimSpace_ascii network_two_files host1 result
      ↔ result = ("docker0", "10.42.0.0/16").
Proof.
  assert (cniConfig network_two_files !! "10-rancher.conf" = Some bridge_file)
    as Hname by (by vm_compute).
  assert (readFile TrimSpace_ascii bridge_file host1
          = ("rancher-bridge", "docker0", "10.42.0.0/16")) as Hread
    by (by vm_compute).
  assert (∀ name' file',
            cniConfig network_two_files !! name' = Some file' →
            isBridgeFile TrimSpace_ascii host1 file' →
            name' = "10-rancher.conf") as Hunique.
  { intros name' file'. rewrite cniConfig_network_two_files.
    intros [[<- _]|[_ [_ <-]%lookup_singleton_Some]]%lookup_insert_Some;
      [done|].
    intros []%loopback_file_no_bridge. }
  split; [done|]. split; [done|]. split; [done|].
  apply (GetBridgeInfo_unique_bridge_file TrimSpace_ascii network_two_files
           host1 "10-rancher.conf" bridge_file "docker0" "10.42.0.0/16"
           Hname Hread ltac:(discriminate) Hunique).
Defined.

Lemma GetBridgeInfo_bridge_from_label_witness :
  Metadata network_labelled !! "cniConfig"
  = Some (NMap {[ "10-rancher.conf" := NMap labelled_bridge_props ]})
  ∧ labelled_bridge_props !! "bridge" = Some (NString "__host_label__:rack")
  ∧ HasPrefix "__host_label__:rack" hostLabelKeyword = true
  ∧ GetBridgeInfo TrimSpace_ascii network_labelled host1
    = ("r7", "10.42.0.0/16").
Proof.
  assert (Metadata network_labelled !! "cniConfig"
          = Some (NMap {[ "10-rancher.conf" := NMap labelled_bridge_props ]}))
    as Hconf by (by vm_compute).
  assert (labelled_bridge_props !! "bridge"
          = Some (NString "__host_label__:rack")) as Hbridge by (by vm_compute).
  assert (labelled_bridge_props !! "type" = Some (NString "rancher-bridge"))
    as Htype by (by vm_compute).
  assert (labelled_bridge_props !! "bridgeSubnet"
          = Some (NString "10.42.0.0/16")) as Hsubnet by (by vm_compute).
  split; [done|]. split; [done|]. split; [reflexivity|].
  rewrite (proj1 (GetBridgeInfo_bridge_from_label TrimSpace_ascii
                    network_labelled host1 "10-rancher.conf"
                    labelled_bridge_props "__host_label__:rack" "10.42.0.0/16"
                    Hconf Htype Hbridge eq_refl Hsubnet eq_refl)).
  by vm_compute.
Defined.

Lemma GetLocalNetworksAndRouters_no_usable_driver_witness :
  (∀ s, s ∈ [sidekick; primary] → Kind s ≠ "networkDriverService")
  ∧ GetLocalNetworksAndRouters [network_bridge] host1 [sidekick; primary]
    = ([], ∅)
  ∧ length (filter (λ s, Kind s = "networkDriverService")
              [driver_other; primary]) = 1
  ∧ length (filter (λ s, Kind s = "networkDriverService")
              [driver_other; driver_other; primary]) ≠ 1
  ∧ GetLocalNetworksAndRouters [network_bridge] host1
      [driver_other; driver_other; primary] = ([], ∅).
Proof.
  assert (∀ s, s ∈ [sidekick; primary] → Kind s ≠ "networkDriverService")
    as Hkind.
  { intros s [->|[->|[]%elem_of_nil]%elem_of_cons]%elem_of_cons; done. }
  assert (length (filter (λ s, Kind s = "networkDriverService")
                    [driver_other; driver_other; primary]) ≠ 1) as Hlen
    by (vm_compute; discriminate).
  split; [done|]. split.
  { apply (proj1 (GetLocalNetworksAndRouters_no_usable_driver
                    [network_bridge] host1 [sidekick; primary]) Hkind). }
  split; [reflexivity|]. split; [done|].
  apply (proj2 (GetLocalNetworksAndRouters_no_usable_driver
                  [network_bridge] host1 [driver_other; driver_other; primary])
           Hlen).
  intros s [->|[->|[->|[]%elem_of_nil]%elem_of_cons]%elem_of_cons]%elem_of_cons;
    done.
Defined.

Lemma GetLocalNetworksAndRouters_routers_invariant_witness :
  (GetLocalNetworksAndRouters [network_bridge] host1
     [driver; sidekick; primary]).2 !! "n1" = Some (router "c3" "h1" "n1")
  ∧ router "c3" "h1" "n1" ∈ Containers (networkService [driver; sidekick; primary])
  ∧ HostUUID (router "c3" "h1" "n1") = Host_UUID host1
  ∧ NetworkUUID (router "c3" "h1" "n1") = "n1".
Proof.
  assert ((GetLocalNetworksAndRouters [network_bridge] host1
             [driver; sidekick; primary]).2 !! "n1"
          = Some (router "c3" "h1" "n1")) as Hrouter by (by vm_compute).
  split; [done|].
  apply (proj1 (GetLocalNetworksAndRouters_routers_invariant
                  [network_bridge] host1 [driver; sidekick; primary])
           "n1" (router "c3" "h1" "n1") Hrouter).
Defined.

Lemma GetLocalNetworksAndRouters_networks_have_router_witness :
  network_bridge
    ∈ (GetLocalNetworksAndRouters [network_foreign; network_bridge] host1
         [driver; sidekick; primary]).1
  ∧ ∃ aContainer,
      (GetLocalNetworksAndRouters [network_foreign; network_bridge] host1
         [driver; sidekick; primary]).2 !! Network_UUID network_bridge
      = Some aContainer
      ∧ HostUUID aContainer = Host_UUID host1
      ∧ NetworkUUID aContainer = Network_UUID network_bridge.
Proof.
  assert (network_bridge
            ∈ (GetLocalNetworksAndRouters [network_foreign; network_bridge]
                 host1 [driver; sidekick; primary]).1) as Hin.
  { assert ((GetLocalNetworksAndRouters [network_foreign; network_bridge]
               host1 [driver; sidekick; primary]).1 = [network_bridge]) as ->
      by (by vm_compute).
    by apply list_elem_of_singleton. }
  split; [done|].
  apply (proj1 (proj2 (GetLocalNetworksAndRouters_networks_have_router
                         [network_foreign; network_bridge] host1
                         [driver; sidekick; primary]))
           network_bridge Hin).
Defined.

Lemma GetLocalNetworksAndRouters_ignores_states_witness :
  (∀ aContainer,
     IsContainerConsideredRunning
       (Container_withState (λ _, "stopped") aContainer) = false)
  ∧ (GetLocalNetworksAndRouters [network_bridge] host1
       (Service_withStates (λ _, "stopped") <$> [driver; sidekick; primary])).1
    = (GetLocalNetworksAndRouters [network_bridge] host1
         [driver; sidekick; primary]).1
  ∧ (GetLocalNetworksAndRouters [network_bridge] host1
       [driver; sidekick; primary]).1 = [network_bridge].
Proof.
  assert (∀ aContainer,
            IsContainerConsideredRunning
              (Container_withState (λ _, "stopped") aContainer) = false)
    as Hstopped by done.
  split; [done|]. split; [|by vm_compute].
  apply (proj1 (proj2 (GetLocalNetworksAndRouters_ignores_states
                         (λ _, "stopped") [network_bridge] host1
                         [driver; sidekick; primary]) Hstopped)).
Defined.

Lemma HasIPAddrFromSubnet_errors_witness :
  LinkByName kernel "eth9" [] = (("", Some "Link not found"), ["LinkByName"])
  ∧ HasIPAddrFromSubnet kernel "eth9" "not a subnet" []
    = ((false, Some "Link not found"), ["LinkByName"])
  ∧ ParseCIDR kernel "not a subnet" = (0%Z, Some "invalid CIDR address")
  ∧ HasIPAddrFromSubnet kernel "docker0" "not a subnet" []
    = ((false, Some "invalid CIDR address"), ["LinkByName"; "AddrList"]).
Proof.
  split; [reflexivity|]. split.
  { apply (proj1 (HasIPAddrFromSubnet_errors kernel "eth9" "not a subnet" [])
             "" "Link not found" ["LinkByName"] eq_refl). }
  split; [reflexivity|].
  apply (proj2 (proj2 (HasIPAddrFromSubnet_errors kernel "docker0"
                         "not a subnet" []))
           "docker0" ["LinkByName"]
           [(167772161, 8); (2886795265, 16)]%Z ["LinkByName"; "AddrList"]
           0%Z "invalid CIDR address" eq_refl eq_refl eq_refl).
Defined.

Lemma HasIPAddrFromSubnet_found_witness :
  LinkByName kernel "docker0" [] = (("docker0", None), ["LinkByName"])
  ∧ AddrList kernel "docker0" AF_INET ["LinkByName"]
    = (([(167772161, 8); (2886795265, 16)]%Z, None), ["LinkByName"; "AddrList"])
  ∧ ParseCIDR kernel "172.17.0.0/16" = (2886795264%Z, None)
  ∧ HasIPAddrFromSubnet kernel "docker0" "172.17.0.0/16" []
    = ((true, None), ["LinkByName"; "AddrList"]).
Proof.
  split; [reflexivity|]. split; [reflexivity|]. split; [reflexivity|].
  destruct (HasIPAddrFromSubnet_found kernel "docker0" "172.17.0.0/16" []
              "docker0" ["LinkByName"] [(167772161, 8); (2886795265, 16)]%Z
              ["LinkByName"; "AddrList"] 2886795264%Z
              eq_refl eq_refl eq_refl) as (found & -> & Hfound & _).
  assert (found = true) as ->; [|done].
  apply Hfound. exists (2886795265, 16)%Z.
  split; [|by vm_compute]. apply elem_of_cons. right. by apply elem_of_cons; left.
Defined.

(** X19: the routers do not depend on the networks given, and the networks
    returned for two lists of networks one after the other are those returned
    for the first followed by those returned for the second. *)
Theorem GetLocalNetworksAndRouters_networks_app networks1 networks2 host services :
  (GetLocalNetworksAndRouters (networks1 ++ networks2) host services).1
  = (GetLocalNetworksAndRouters networks1 host services).1
    ++ (GetLocalNetworksAndRouters networks2 host services).1
  ∧ (GetLocalNetworksAndRouters (networks1 ++ networks2) host services).2
    = (GetLocalNetworksAndRouters networks1 host services).2
  ∧ (GetLocalNetworksAndRouters networks1 host services).2
    = (GetLocalNetworksAndRouters networks2 host services).2.
Proof.
  unfold GetLocalNetworksAndRouters, resolveWithDrivers. cbn [fst snd].
  rewrite !localNetworksOf_filter. by rewrite filter_app.
Qed.
